(** * MSD survey tool: the risk model of [app.py]

    A shallow embedding of the scoring, tiering and recommendation
    functions of [app.py], and of the CSV import handler of its
    Import/Export page, with the properties the specification states
    about them.

    Number model.  Python's [int] and [float] values are embedded in the
    rationals [Q]: arithmetic is exact and every number is finite.
    Rounding error of IEEE doubles, infinities and NaN are outside the
    model.  Equality of computed scores is [Qeq] (written [==]).

    Python strings are [string]; a [dict] is a [gmap string _]; a list is
    a [list]; a raised exception is [None] in the [option] monad. *)

From Stdlib Require Import QArith Qminmax Lqa.
From stdpp Require Import base option strings list sorting gmap.

Open Scope Q_scope.
Open Scope string_scope.

(** ** Python's dictionaries *)

Module PyDict.

(** A dict display [{k1: v1, ..., kn: vn}].  The keys of every display in
    [app.py] are distinct, so the order of insertion is immaterial. *)
Definition literal {V} (kvs : list (string * V)) : gmap string V :=
  list_to_map kvs.

(** [d.get(k, dflt)] *)
Definition get {V} (d : gmap string V) (k : string) (dflt : V) : V :=
  default dflt (d !! k).

(** [d[k]]: raises [KeyError] when [k] is absent. *)
Definition item {V} (d : gmap string V) (k : string) : option V :=
  d !! k.

End PyDict.

(** ** The two NumPy routines the scorers call *)

Module Numpy.

(** Walk along the table from the breakpoint [(x0, y0)], which is known
    to satisfy [x0 <= x]: stop in the first segment whose right end is
    beyond [x] and interpolate there; past the last breakpoint the
    value is the last ordinate. *)
Fixpoint interp_from (x x0 y0 : Q) (pts : list (Q * Q)) : Q :=
  match pts with
  | [] => y0
  | (x1, y1) :: pts' =>
      if Qle_bool x1 x then interp_from x x1 y1 pts'
      else (y1 - y0) / (x1 - x0) * (x - x0) + y0
  end.

(** Modelled from the spec: [np.interp] is NumPy's routine and is not
    part of [app.py]; section 4.1 gives the contract the scorers rely
    on.  For increasing abscissae [xp] with ordinates [fp], the result
    at [x] is [fp[0]] left of the table, [fp[-1]] right of it, and
    [slope * (x - xp[j]) + fp[j]] in the segment [xp[j] <= x < xp[j+1]],
    with [slope = (fp[j+1] - fp[j]) / (xp[j+1] - xp[j])].  An empty
    table, or tables of different lengths, raise [ValueError]. *)
Definition interp (x : Q) (xp fp : list Q) : option Q :=
  if bool_decide (length xp = length fp) then
    match zip xp fp with
    | [] => None
    | (x0, y0) :: pts =>
        Some (if Qle_bool x0 x then interp_from x x0 y0 pts else y0)
    end
  else None.

(** Modelled from the spec: [np.clip] is NumPy's too; it is the clamp of
    section 4.2, which NumPy computes as
    [minimum(a_max, maximum(a, a_min))]. *)
Definition clip (a a_min a_max : Q) : Q :=
  Qmin a_max (Qmax a a_min).

End Numpy.

(** ** The part of pandas the import handler uses

    pandas is a library too; a table is modelled by its column labels in
    order and the cells under each, which is all the handler looks at. *)

Module Pandas.

(** A cell of a table; [None] is the missing value. *)
Definition cell : Type := option string.

(** A [DataFrame]: the length of its index and its columns in order, each
    a label with the cells of that column. *)
Record DataFrame : Type := mkDataFrame {
  index_len : nat;
  series : list (string * list cell)
}.

(** [df.columns] *)
Definition columns (df : DataFrame) : list string := (series df).*1.

(** The cells stored under a label, if any. *)
Fixpoint lookup_series (c : string) (ss : list (string * list cell))
  : option (list cell) :=
  match ss with
  | [] => None
  | (k, vs) :: ss' => if decide (k = c) then Some vs else lookup_series c ss'
  end.

(** [df[c] = v] for a scalar [v]: the column [c] is filled with [v]; a new
    label is added after the existing ones. *)
Definition setitem (df : DataFrame) (c : string) (v : cell) : DataFrame :=
  let filled := replicate (index_len df) v in
  if bool_decide (c ∈ columns df) then
    mkDataFrame (index_len df)
      (map (fun kv => if decide (kv.1 = c) then (c, filled) else kv) (series df))
  else
    mkDataFrame (index_len df) (series df ++ [(c, filled)]).

(** [df[labels]]: the named columns in the order asked for; [KeyError]
    when a label is missing. *)
Definition getitem (df : DataFrame) (labels : list string) : option DataFrame :=
  ss ← mapM (fun c => vs ← lookup_series c (series df); Some (c, vs)) labels;
  Some (mkDataFrame (index_len df) ss).

End Pandas.

Import Pandas.

(** ** Utilities and defaults *)

Definition DEFAULT_THRESHOLDS : gmap string Q :=
  PyDict.literal [("high", 70); ("med_high", 50); ("med", 35)].

Definition COLUMNS : list string :=
  [ "timestamp"; "tool"; "task_name";
    "duration_min"; "frequency_per_hr"; "posture";
    "load_kg"; "lift_height";
    "push_pull_force_kg"; "distance_m"; "surface";
    "reps_per_min"; "cycle_time_sec"; "neck_shoulder_awk";
    "risk_score"; "risk_tier" ].

Definition POSTURES : list string := ["neutral"; "bending"; "twisting"; "reaching"].
Definition LIFT_HEIGHTS : list string := ["floor"; "knee"; "waist"; "shoulder"].
Definition SURFACES : list string := ["smooth"; "rough"].
Definition NECK_SHOULDER : list string := ["none"; "mild"; "severe"].

(** ** Risk model *)

(** [score >= thres[k]] *)
Definition ge_threshold (score t : Q) : bool := Qle_bool t score.

(** A threshold dict with exactly the three keys the classifier reads. *)
Definition threshold_set (high med_high med : Q) : gmap string Q :=
  PyDict.literal [("high", high); ("med_high", med_high); ("med", med)].

Definition tier_from_score (score : Q) (thres : gmap string Q) : option string :=
  high ← PyDict.item thres "high";
  if ge_threshold score high then Some "High" else
  med_high ← PyDict.item thres "med_high";
  if ge_threshold score med_high then Some "Med-High" else
  med ← PyDict.item thres "med";
  if ge_threshold score med then Some "Medium" else
  Some "Low".

Definition score_nzmac (load_kg frequency_per_hr : Q) (posture lift_height : string)
  : option Q :=
  load_points ← Numpy.interp load_kg [0; 5; 10; 20; 35] [5; 15; 30; 55; 75];
  freq_mult ← Numpy.interp frequency_per_hr [0; 10; 30; 60] [1.0; 1.1; 1.25; 1.4];
  let posture_pen :=
    PyDict.get (PyDict.literal [("neutral", 1.0); ("bending", 1.15);
                                ("twisting", 1.2); ("reaching", 1.1)])
               posture 1.0 in
  let height_pen :=
    PyDict.get (PyDict.literal [("floor", 1.25); ("knee", 1.15);
                                ("waist", 1.0); ("shoulder", 1.2)])
               lift_height 1.0 in
  let score := load_points * freq_mult * posture_pen * height_pen in
  Some (Numpy.clip score 5 100).

Definition score_nzrapp (push_pull_force_kg distance_m : Q) (surface : string)
    (frequency_per_hr : Q) : option Q :=
  force_points ← Numpy.interp push_pull_force_kg [0; 5; 10; 20; 35] [5; 15; 28; 48; 70];
  dist_mult ← Numpy.interp distance_m [0; 10; 30; 60] [1.0; 1.05; 1.15; 1.25];
  let surface_pen :=
    PyDict.get (PyDict.literal [("smooth", 1.0); ("rough", 1.15)]) surface 1.0 in
  freq_mult ← Numpy.interp frequency_per_hr [0; 10; 30; 60] [1.0; 1.1; 1.2; 1.3];
  let score := force_points * dist_mult * surface_pen * freq_mult in
  Some (Numpy.clip score 5 100).

Definition score_nzart (reps_per_min cycle_time_sec : Q)
    (neck_shoulder_awk posture : string) : option Q :=
  rep_points ← Numpy.interp reps_per_min [0; 10; 20; 40; 60] [5; 15; 30; 55; 75];
  cycle_adj ← Numpy.interp cycle_time_sec [5; 20; 60] [1.25; 1.1; 1.0];
  let neck_pen :=
    PyDict.get (PyDict.literal [("none", 1.0); ("mild", 1.15); ("severe", 1.35)])
               neck_shoulder_awk 1.0 in
  let posture_pen :=
    PyDict.get (PyDict.literal [("neutral", 1.0); ("bending", 1.1);
                                ("twisting", 1.15); ("reaching", 1.2)])
               posture 1.0 in
  let score := rep_points * cycle_adj * neck_pen * posture_pen in
  Some (Numpy.clip score 5 100).

Definition recommendations (tier tool : string) : list string :=
  let base :=
    [ "Rotate tasks to reduce exposure time.";
      "Provide micro-breaks and encourage neutral postures.";
      "Train staff on safe techniques and early symptom reporting." ] in
  let base :=
    if bool_decide (tier ∈ ["Med-High"; "High"]) then
      (* base.insert(0, ...) *)
      let base :=
        "Consider engineering controls (lifting aids, height-adjustable benches)."
        :: base in
      (* base.append(...), once for the tool that matches *)
      let base :=
        if bool_decide (tool = "NZMAC")
        then (base ++ ["Reduce load weight or split lifts into smaller units."])%list
        else base in
      let base :=
        if bool_decide (tool = "NZRAPP")
        then (base ++ ["Reduce initial push/pull force and improve wheel/surface condition."])%list
        else base in
      let base :=
        if bool_decide (tool = "NZART")
        then (base ++ ["Redesign tasks to lower repetition rate or awkward neck/shoulder posture."])%list
        else base in
      base
    else base in
  (* base[:4] *)
  take 4 base.

(** ** Import/Export page: "Import CSV (replace all data)" *)

(** What the [try] block can raise: whatever [pd.read_csv] raised, or the
    [KeyError] of the column selection. *)
Inductive import_exception (E : Type) : Type :=
| ReadCsvError (e : E)
| KeyError.
Arguments ReadCsvError {E} e.
Arguments KeyError {E}.

(** What the page shows: [st.success] or [st.error]. *)
Inductive notice (E : Type) : Type :=
| success (msg : string)
| error (e : import_exception E).
Arguments success {E} msg.
Arguments error {E} e.

(** [st.session_state] *)
Record session_state : Type := mkSession {
  df : DataFrame;
  thresholds : gmap string Q
}.

(** The loop [for c in labels: if c not in new_df.columns: new_df[c] = None]. *)
Definition align_columns_over (labels : list string) (new_df : DataFrame) : DataFrame :=
  foldl (fun d c => if bool_decide (c ∉ columns d) then setitem d c None else d)
        new_df labels.

Definition align_columns : DataFrame -> DataFrame := align_columns_over COLUMNS.

(** The handler, run on the uploaded file [up] ([None]: nothing uploaded).
    [read_csv] stands for [pd.read_csv]: it returns the parsed table or
    the exception it raised. *)
Definition import_csv {U E : Type} (read_csv : U -> E + DataFrame)
    (st : session_state) (up : option U) : session_state * option (notice E) :=
  match up with
  | None => (st, None)
  | Some up =>
      match read_csv up with
      | inl e => (st, Some (error (ReadCsvError e)))
      | inr new_df =>
          let new_df := align_columns new_df in
          match getitem new_df COLUMNS with
          | None => (st, Some (error KeyError))
          | Some table =>
              (mkSession table (thresholds st), Some (success "✅ Data replaced."))
          end
      end
  end.

(** ** History page: the filter by tool *)

(** [df[c] == v]: one boolean per row, true where the cell under [c] is
    [v]; [KeyError] when there is no column [c]. *)
Definition eq_mask (d : DataFrame) (c v : string) : option (list bool) :=
  vs ← lookup_series c (series d);
  Some (map (fun x => bool_decide (x = Some v)) vs).

(** The cells of one column that a mask keeps. *)
Fixpoint select_cells (mask : list bool) (vs : list cell) : list cell :=
  match mask, vs with
  | b :: mask', v :: vs' =>
      if b then v :: select_cells mask' vs' else select_cells mask' vs'
  | _, _ => []
  end.

(** [df[mask]]: the rows where the mask is true, in every column. *)
Definition getitem_mask (d : DataFrame) (mask : list bool) : DataFrame :=
  mkDataFrame (length (filter (fun b => b = true) mask))
              (map (fun kv => (kv.1, select_cells mask kv.2)) (series d)).

(** [if filt_tool != "All": df = df[df["tool"] == filt_tool]] *)
Definition filter_by_tool (d : DataFrame) (filt_tool : string) : option DataFrame :=
  if bool_decide (filt_tool ≠ "All") then
    mask ← eq_mask d "tool" filt_tool;
    Some (getitem_mask d mask)
  else Some d.

(** ** What the specification says, in its own words *)

Module Spec.

(** [clamp(x, lo, hi)] *)
Definition clamp (x lo hi : Q) : Q :=
  if Qlt_le_dec x lo then lo
  else if Qlt_le_dec hi x then hi
  else x.

(** Breakpoints [(0,5,10,20,35) -> (5,15,30,55,75)], one line per
    segment, flat outside the table. *)
Definition lifting_base (load_kg : Q) : Q :=
  if Qlt_le_dec load_kg 0 then 5
  else if Qlt_le_dec load_kg 5 then 5 + (15 - 5) * (load_kg - 0) / (5 - 0)
  else if Qlt_le_dec load_kg 10 then 15 + (30 - 15) * (load_kg - 5) / (10 - 5)
  else if Qlt_le_dec load_kg 20 then 30 + (55 - 30) * (load_kg - 10) / (20 - 10)
  else if Qlt_le_dec load_kg 35 then 55 + (75 - 55) * (load_kg - 20) / (35 - 20)
  else 75.

(** Breakpoints [(0,10,30,60) -> (1.0,1.1,1.25,1.4)]. *)
Definition lifting_freq_mult (frequency_per_hr : Q) : Q :=
  if Qlt_le_dec frequency_per_hr 0 then 1
  else if Qlt_le_dec frequency_per_hr 10
    then 1 + (1.1 - 1) * (frequency_per_hr - 0) / (10 - 0)
  else if Qlt_le_dec frequency_per_hr 30
    then 1.1 + (1.25 - 1.1) * (frequency_per_hr - 10) / (30 - 10)
  else if Qlt_le_dec frequency_per_hr 60
    then 1.25 + (1.4 - 1.25) * (frequency_per_hr - 30) / (60 - 30)
  else 1.4.

(** [{neutral:1.0, bending:1.15, twisting:1.2, reaching:1.1}], 1.0 for
    anything else. *)
Definition lifting_posture_mult (posture : string) : Q :=
  if decide (posture = "neutral") then 1
  else if decide (posture = "bending") then 1.15
  else if decide (posture = "twisting") then 1.2
  else if decide (posture = "reaching") then 1.1
  else 1.

(** [{floor:1.25, knee:1.15, waist:1.0, shoulder:1.2}], 1.0 for anything
    else. *)
Definition lifting_height_mult (lift_height : string) : Q :=
  if decide (lift_height = "floor") then 1.25
  else if decide (lift_height = "knee") then 1.15
  else if decide (lift_height = "waist") then 1
  else if decide (lift_height = "shoulder") then 1.2
  else 1.

Definition score_lifting (load_kg frequency_per_hr : Q)
    (posture lift_height : string) : Q :=
  clamp (lifting_base load_kg * lifting_freq_mult frequency_per_hr
         * lifting_posture_mult posture * lifting_height_mult lift_height)
        5 100.

(** The tiers, in the order [Low < Medium < Med-High < High]. *)
Definition tiers : list string := ["Low"; "Medium"; "Med-High"; "High"].

(** Position of a label in that order. *)
Definition tier_rank (tier : string) : nat :=
  if decide (tier = "High") then 3
  else if decide (tier = "Med-High") then 2
  else if decide (tier = "Medium") then 1
  else 0.

(** The rule of section 4.3, evaluated high to low. *)
Definition classify_tier (score high med_high med : Q) : string :=
  if Qlt_le_dec score high then
    if Qlt_le_dec score med_high then
      if Qlt_le_dec score med then "Low" else "Medium"
    else "Med-High"
  else "High".

(** The suggestions of section 4.4 that depend on the tool. *)
Definition tool_specific : list string :=
  [ "Reduce load weight or split lifts into smaller units.";
    "Reduce initial push/pull force and improve wheel/surface condition.";
    "Redesign tasks to lower repetition rate or awkward neck/shoulder posture." ].

Definition base_strings : list string :=
  [ "Rotate tasks to reduce exposure time.";
    "Provide micro-breaks and encourage neutral postures.";
    "Train staff on safe techniques and early symptom reporting." ].

Definition general_strings : list string :=
  "Consider engineering controls (lifting aids, height-adjustable benches)."
  :: base_strings.

(** Does a list of recommendations hold one of them? *)
Definition has_tool_specific (recs : list string) : bool :=
  bool_decide (Exists (fun s => s ∈ tool_specific) recs).

(** The table an import is meant to store: the columns of [COLUMNS] in
    that order, each taken from the parsed table when it has one of that
    label and filled with the missing value otherwise. *)
Definition normalized (new_df : DataFrame) : DataFrame :=
  mkDataFrame (index_len new_df)
    (map (fun c => (c, default (replicate (index_len new_df) None)
                               (lookup_series c (series new_df))))
         COLUMNS).

End Spec.

(** ** Shapes of interpolation tables *)

(** From [(x0, y0)] on, the abscissae increase strictly and the ordinates
    never decrease. *)
Fixpoint rising (x0 y0 : Q) (pts : list (Q * Q)) : Prop :=
  match pts with
  | [] => True
  | (x1, y1) :: pts' => x0 < x1 /\ y0 <= y1 /\ rising x1 y1 pts'
  end.

(** The same with ordinates that never increase. *)
Fixpoint falling (x0 y0 : Q) (pts : list (Q * Q)) : Prop :=
  match pts with
  | [] => True
  | (x1, y1) :: pts' => x0 < x1 /\ y1 <= y0 /\ falling x1 y1 pts'
  end.

(** What [Numpy.interp] returns on the table whose first breakpoint is
    [(x0, y0)] and whose other breakpoints are [pts]. *)
Definition table_value (x x0 y0 : Q) (pts : list (Q * Q)) : Q :=
  if Qle_bool x0 x then Numpy.interp_from x x0 y0 pts else y0.

(** ** Arithmetic and dictionary helpers *)

Lemma Qle_bool_false (a b : Q) : Qle_bool a b = false -> b < a.
Proof.
  intros E. apply Qnot_le_lt. intros H.
  apply Qle_bool_iff in H. congruence.
Qed.

(** Case split on every comparison in the goal. *)
Ltac q_cases :=
  repeat match goal with
  | |- context [Qle_bool ?a ?b] =>
      let E := fresh "E" in
      destruct (Qle_bool a b) eqn:E;
      [apply Qle_bool_iff in E | apply Qle_bool_false in E]
  | |- context [Qlt_le_dec ?a ?b] => destruct (Qlt_le_dec a b)
  end.

Lemma get_literal_cons {V} (k : string) (v : V) kvs k' dflt :
  PyDict.get (PyDict.literal ((k, v) :: kvs)) k' dflt
  = if decide (k' = k) then v else PyDict.get (PyDict.literal kvs) k' dflt.
Proof.
  unfold PyDict.get, PyDict.literal. cbn [list_to_map foldr fst snd uncurry].
  rewrite lookup_insert. repeat case_decide; subst; simpl; congruence.
Qed.

Lemma get_literal_nil {V} (k' : string) (dflt : V) :
  PyDict.get (PyDict.literal []) k' dflt = dflt.
Proof. reflexivity. Qed.

Lemma clip_spec (a lo hi : Q) : lo <= hi -> Numpy.clip a lo hi == Spec.clamp a lo hi.
Proof.
  intros Hlh. unfold Numpy.clip, Spec.clamp.
  destruct (Qlt_le_dec a lo) as [Hlo | Hlo].
  - rewrite (Q.max_r a lo) by lra. now rewrite Q.min_r.
  - rewrite (Q.max_l a lo) by lra.
    destruct (Qlt_le_dec hi a); [apply Q.min_l | apply Q.min_r]; lra.
Qed.

Lemma clip_range (a lo hi : Q) : lo <= hi -> lo <= Numpy.clip a lo hi <= hi.
Proof.
  intros Hlh. unfold Numpy.clip. split.
  - apply Q.min_glb; [exact Hlh | apply Q.le_max_r].
  - apply Q.le_min_l.
Qed.

#[global] Instance clip_proper : Proper (Qeq ==> Qeq ==> Qeq ==> Qeq) Numpy.clip.
Proof.
  intros a a' Ha lo lo' Hlo hi hi' Hhi. unfold Numpy.clip.
  now rewrite Ha, Hlo, Hhi.
Qed.

Ltac dict_get :=
  repeat rewrite get_literal_cons; rewrite get_literal_nil.

(** ** The interpolation primitive *)

(** Left of the table the value is the first ordinate. *)
Lemma interp_left (x x0 y0 : Q) (xp fp : list Q) :
  length xp = length fp -> x < x0 ->
  Numpy.interp x (x0 :: xp) (y0 :: fp) = Some y0.
Proof.
  intros Hlen Hx. unfold Numpy.interp. cbn [length zip zip_with].
  rewrite bool_decide_eq_true_2 by congruence.
  destruct (Qle_bool x0 x) eqn:E; [| reflexivity].
  apply Qle_bool_iff in E. lra.
Qed.

(** From the last breakpoint on it is the last ordinate. *)
Lemma interp_from_right (x x0 y0 : Q) (pts : list (Q * Q)) (xl yl : Q) :
  Forall (fun p => p.1 <= x) pts ->
  last ((x0, y0) :: pts) = Some (xl, yl) ->
  Numpy.interp_from x x0 y0 pts = yl.
Proof.
  revert x0 y0. induction pts as [| [x1 y1] pts IH]; intros x0 y0 Hall Hlast.
  - now injection Hlast as _ <-.
  - apply Forall_cons in Hall as [H1 Hall]. cbn [Numpy.interp_from].
    cbn [fst] in H1. apply Qle_bool_iff in H1 as ->.
    apply (IH x1 y1 Hall). now rewrite last_cons_cons in Hlast.
Qed.

(** Inside the table, between two consecutive breakpoints of an increasing
    table, it is the line through them. *)
Lemma interp_from_segment (x x0 y0 : Q) (pts : list (Q * Q))
    (j : nat) (xa ya xb yb : Q) :
  StronglySorted Qlt (x0 :: pts.*1) ->
  ((x0, y0) :: pts) !! j = Some (xa, ya) ->
  ((x0, y0) :: pts) !! S j = Some (xb, yb) ->
  xa <= x < xb ->
  Numpy.interp_from x x0 y0 pts = (yb - ya) / (xb - xa) * (x - xa) + ya.
Proof.
  revert x0 y0 j.
  induction pts as [| [x1 y1] pts IH]; intros x0 y0 j Hs Ha Hb [Hxa Hxb].
  - destruct j; discriminate.
  - cbn [Numpy.interp_from]. destruct j as [| j].
    + injection Ha as <- <-. injection Hb as <- <-.
      destruct (Qle_bool x1 x) eqn:E; [| reflexivity].
      apply Qle_bool_iff in E. lra.
    + apply StronglySorted_inv in Hs as [Hs H0].
      assert (x1 <= x) as Hx1.
      { cbn in Ha. destruct j as [| j].
        - injection Ha as <- <-. exact Hxa.
        - cbn in Hs. apply StronglySorted_inv in Hs as [_ H1].
          pose proof (proj1 (Forall_lookup _ _) H1 j xa) as Hlt.
          change (pts !! j = Some (xa, ya)) in Ha.
          rewrite list_lookup_fmap, Ha in Hlt.
          specialize (Hlt eq_refl). lra. }
      apply Qle_bool_iff in Hx1 as ->.
      apply (IH x1 y1 j Hs Ha Hb). split; assumption.
Qed.

(** ** The lifting scorer against its specification *)

Lemma lifting_base_interp (load_kg : Q) :
  exists b, Numpy.interp load_kg [0; 5; 10; 20; 35] [5; 15; 30; 55; 75] = Some b
            /\ b == Spec.lifting_base load_kg.
Proof.
  eexists; split; [reflexivity |].
  unfold Spec.lifting_base; cbn [Numpy.interp_from].
  q_cases; try lra; try field.
Qed.

Lemma lifting_freq_interp (frequency_per_hr : Q) :
  exists m, Numpy.interp frequency_per_hr [0; 10; 30; 60] [1.0; 1.1; 1.25; 1.4] = Some m
            /\ m == Spec.lifting_freq_mult frequency_per_hr.
Proof.
  eexists; split; [reflexivity |].
  unfold Spec.lifting_freq_mult; cbn [Numpy.interp_from].
  q_cases; try lra; try field.
Qed.

Lemma lifting_posture_get (posture : string) :
  PyDict.get (PyDict.literal [("neutral", 1.0); ("bending", 1.15);
                              ("twisting", 1.2); ("reaching", 1.1)])
             posture 1.0
  == Spec.lifting_posture_mult posture.
Proof.
  dict_get. unfold Spec.lifting_posture_mult.
  repeat case_decide; reflexivity.
Qed.

Lemma lifting_height_get (lift_height : string) :
  PyDict.get (PyDict.literal [("floor", 1.25); ("knee", 1.15);
                              ("waist", 1.0); ("shoulder", 1.2)])
             lift_height 1.0
  == Spec.lifting_height_mult lift_height.
Proof.
  dict_get. unfold Spec.lifting_height_mult.
  repeat case_decide; reflexivity.
Qed.

(** C1.  For every load, frequency, posture and lift height, [score_nzmac]
    returns a score, and that score is the product of the interpolated
    base points, the interpolated frequency multiplier and the posture and
    height multipliers of the tables, clamped to [5, 100]. *)
Theorem score_nzmac_spec (load_kg frequency_per_hr : Q) (posture lift_height : string) :
  exists s, score_nzmac load_kg frequency_per_hr posture lift_height = Some s
            /\ s == Spec.score_lifting load_kg frequency_per_hr posture lift_height.
Proof.
  destruct (lifting_base_interp load_kg) as (b & Hb & Eb).
  destruct (lifting_freq_interp frequency_per_hr) as (m & Hm & Em).
  unfold score_nzmac. rewrite Hb, Hm. cbn [mbind option_bind].
  eexists; split; [reflexivity |].
  unfold Spec.score_lifting.
  rewrite <- clip_spec by lra.
  now rewrite Eb, Em, lifting_posture_get, lifting_height_get.
Qed.

(** ** The tier classifier *)

Lemma threshold_set_items (high med_high med : Q) :
  PyDict.item (threshold_set high med_high med) "high" = Some high
  /\ PyDict.item (threshold_set high med_high med) "med_high" = Some med_high
  /\ PyDict.item (threshold_set high med_high med) "med" = Some med.
Proof. repeat split. Qed.

Lemma DEFAULT_THRESHOLDS_set : DEFAULT_THRESHOLDS = threshold_set 70 50 35.
Proof. reflexivity. Qed.

(** On a dict that holds the three keys, no lookup fails and the
    classifier is the first-match cascade. *)
Lemma tier_from_score_cascade (score high med_high med : Q) :
  tier_from_score score (threshold_set high med_high med)
  = Some (if Qle_bool high score then "High"
          else if Qle_bool med_high score then "Med-High"
          else if Qle_bool med score then "Medium"
          else "Low").
Proof.
  unfold tier_from_score, ge_threshold.
  destruct (threshold_set_items high med_high med) as (-> & -> & ->).
  cbn [mbind option_bind].
  repeat destruct (Qle_bool _ score); reflexivity.
Qed.

Lemma tier_from_score_classify (score high med_high med : Q) :
  tier_from_score score (threshold_set high med_high med)
  = Some (Spec.classify_tier score high med_high med).
Proof.
  rewrite tier_from_score_cascade. unfold Spec.classify_tier.
  q_cases; try reflexivity; lra.
Qed.

(** C2.  When the thresholds are ordered, [med <= med_high <= high], the
    classifier returns the tier of the spec's rule: [High] exactly when
    [score >= high], [Med-High] exactly when [med_high <= score < high],
    [Medium] exactly when [med <= score < med_high] and [Low] exactly when
    [score < med]; a score on a boundary belongs to the upper tier.  With
    the defaults, 70 is [High], 69.9 and 50 are [Med-High], 35 is
    [Medium] and 34.9 is [Low]. *)
Theorem tier_from_score_rule (score high med_high med : Q) :
  med <= med_high -> med_high <= high ->
  (exists t,
      tier_from_score score (threshold_set high med_high med) = Some t
      /\ t = Spec.classify_tier score high med_high med
      /\ (t = "High" <-> high <= score)
      /\ (t = "Med-High" <-> med_high <= score < high)
      /\ (t = "Medium" <-> med <= score < med_high)
      /\ (t = "Low" <-> score < med))
  /\ tier_from_score 70 DEFAULT_THRESHOLDS = Some "High"
  /\ tier_from_score 69.9 DEFAULT_THRESHOLDS = Some "Med-High"
  /\ tier_from_score 50 DEFAULT_THRESHOLDS = Some "Med-High"
  /\ tier_from_score 35 DEFAULT_THRESHOLDS = Some "Medium"
  /\ tier_from_score 34.9 DEFAULT_THRESHOLDS = Some "Low".
Proof.
  intros Hm Hh. split; [| repeat split].
  eexists; split; [apply tier_from_score_classify |].
  split; [reflexivity |].
  unfold Spec.classify_tier.
  q_cases; repeat split; intros; try discriminate; try reflexivity; lra.
Qed.

Lemma tier_from_score_rule_witness :
  exists t, tier_from_score 42 (threshold_set 70 50 35) = Some t /\ t = "Medium".
Proof.
  destruct (tier_from_score_rule 42 70 50 35) as [(t & Ht & _ & _ & _ & Hmed & _) _].
  - lra.
  - lra.
  - exists t. split; [exact Ht | apply Hmed; lra].
Defined.

(** C7.  For any thresholds, ordered or not, a higher score never gets a
    lower tier in the order [Low < Medium < Med-High < High]. *)
Theorem tier_from_score_monotone (s1 s2 high med_high med : Q) :
  s1 <= s2 ->
  exists t1 t2,
    tier_from_score s1 (threshold_set high med_high med) = Some t1
    /\ tier_from_score s2 (threshold_set high med_high med) = Some t2
    /\ (Spec.tier_rank t1 <= Spec.tier_rank t2)%nat.
Proof.
  intros Hle. do 2 eexists.
  split; [apply tier_from_score_classify |].
  split; [apply tier_from_score_classify |].
  unfold Spec.classify_tier.
  q_cases; try lra; vm_compute; lia.
Qed.

Lemma tier_from_score_monotone_witness :
  exists t1 t2,
    tier_from_score 40 DEFAULT_THRESHOLDS = Some t1
    /\ tier_from_score 60 DEFAULT_THRESHOLDS = Some t2
    /\ (Spec.tier_rank t1 <= Spec.tier_rank t2)%nat.
Proof.
  apply (tier_from_score_monotone 40 60 70 50 35). lra.
Defined.

(** C10.  For every score and every three thresholds, ordered or not, the
    classifier raises nothing and returns one of the four labels, the one
    of the first test that succeeds in the order [high], [med_high],
    [med]; so with [high = 50] below [med_high = 70] the score 60 is
    [High]. *)
Theorem tier_from_score_total (score high med_high med : Q) :
  (exists t,
      tier_from_score score (threshold_set high med_high med) = Some t
      /\ t ∈ Spec.tiers
      /\ t = (if Qle_bool high score then "High"
              else if Qle_bool med_high score then "Med-High"
              else if Qle_bool med score then "Medium"
              else "Low"))
  /\ tier_from_score 60 (threshold_set 50 70 35) = Some "High".
Proof.
  split; [| reflexivity].
  eexists; split; [apply tier_from_score_cascade |].
  split; [| reflexivity].
  unfold Spec.tiers. q_cases; set_solver.
Qed.

(** ** Range of the scores *)

(** C4.  Each of the three scorers returns, for every numeric input
    (negative or beyond the tables included) and every string as a
    category, a score between 5 and 100 inclusive. *)
Theorem scores_in_range :
  (forall load_kg frequency_per_hr posture lift_height,
      exists s, score_nzmac load_kg frequency_per_hr posture lift_height = Some s
                /\ 5 <= s <= 100)
  /\ (forall push_pull_force_kg distance_m surface frequency_per_hr,
      exists s, score_nzrapp push_pull_force_kg distance_m surface frequency_per_hr = Some s
                /\ 5 <= s <= 100)
  /\ (forall reps_per_min cycle_time_sec neck_shoulder_awk posture,
      exists s, score_nzart reps_per_min cycle_time_sec neck_shoulder_awk posture = Some s
                /\ 5 <= s <= 100).
Proof.
  repeat split; intros; (eexists; split; [reflexivity | apply clip_range; lra]).
Qed.

(** ** Unrecognised categories *)

Lemma get_unrecognised {V} (kvs : list (string * V)) (k : string) (dflt : V) :
  k ∉ kvs.*1 -> PyDict.get (PyDict.literal kvs) k dflt = dflt.
Proof.
  intros Hk. unfold PyDict.get, PyDict.literal.
  rewrite (not_elem_of_list_to_map_1 kvs k Hk). reflexivity.
Qed.

(** C8.  In each scorer, a categorical argument outside its recognised
    values does not make the scorer fail: the scorer returns a score, that
    score is the clamped product in which the multiplier of that argument
    is 1.0, and it is the score returned for the recognised value whose
    multiplier is 1.0 ([neutral], [waist], [smooth], [none]), the other
    arguments being the same. *)
Theorem unrecognised_category_is_neutral
    (x y z : Q) (posture lift_height surface neck_shoulder_awk : string) :
  (posture ∉ POSTURES ->
     exists load_points freq_mult s,
       Numpy.interp x [0; 5; 10; 20; 35] [5; 15; 30; 55; 75] = Some load_points
       /\ Numpy.interp y [0; 10; 30; 60] [1.0; 1.1; 1.25; 1.4] = Some freq_mult
       /\ score_nzmac x y posture lift_height = Some s
       /\ s == Numpy.clip
                 (load_points * freq_mult * 1.0
                  * PyDict.get (PyDict.literal [("floor", 1.25); ("knee", 1.15);
                                               ("waist", 1.0); ("shoulder", 1.2)])
                               lift_height 1.0)
                 5 100
       /\ score_nzmac x y "neutral" lift_height = Some s)
  /\ (lift_height ∉ LIFT_HEIGHTS ->
     exists load_points freq_mult s,
       Numpy.interp x [0; 5; 10; 20; 35] [5; 15; 30; 55; 75] = Some load_points
       /\ Numpy.interp y [0; 10; 30; 60] [1.0; 1.1; 1.25; 1.4] = Some freq_mult
       /\ score_nzmac x y posture lift_height = Some s
       /\ s == Numpy.clip
                 (load_points * freq_mult
                  * PyDict.get (PyDict.literal [("neutral", 1.0); ("bending", 1.15);
                                               ("twisting", 1.2); ("reaching", 1.1)])
                               posture 1.0
                  * 1.0)
                 5 100
       /\ score_nzmac x y posture "waist" = Some s)
  /\ (surface ∉ SURFACES ->
     exists force_points dist_mult freq_mult s,
       Numpy.interp x [0; 5; 10; 20; 35] [5; 15; 28; 48; 70] = Some force_points
       /\ Numpy.interp y [0; 10; 30; 60] [1.0; 1.05; 1.15; 1.25] = Some dist_mult
       /\ Numpy.interp z [0; 10; 30; 60] [1.0; 1.1; 1.2; 1.3] = Some freq_mult
       /\ score_nzrapp x y surface z = Some s
       /\ s == Numpy.clip (force_points * dist_mult * 1.0 * freq_mult) 5 100
       /\ score_nzrapp x y "smooth" z = Some s)
  /\ (neck_shoulder_awk ∉ NECK_SHOULDER ->
     exists rep_points cycle_adj s,
       Numpy.interp x [0; 10; 20; 40; 60] [5; 15; 30; 55; 75] = Some rep_points
       /\ Numpy.interp y [5; 20; 60] [1.25; 1.1; 1.0] = Some cycle_adj
       /\ score_nzart x y neck_shoulder_awk posture = Some s
       /\ s == Numpy.clip
                 (rep_points * cycle_adj * 1.0
                  * PyDict.get (PyDict.literal [("neutral", 1.0); ("bending", 1.1);
                                               ("twisting", 1.15); ("reaching", 1.2)])
                               posture 1.0)
                 5 100
       /\ score_nzart x y "none" posture = Some s)
  /\ (posture ∉ POSTURES ->
     exists rep_points cycle_adj s,
       Numpy.interp x [0; 10; 20; 40; 60] [5; 15; 30; 55; 75] = Some rep_points
       /\ Numpy.interp y [5; 20; 60] [1.25; 1.1; 1.0] = Some cycle_adj
       /\ score_nzart x y neck_shoulder_awk posture = Some s
       /\ s == Numpy.clip
                 (rep_points * cycle_adj
                  * PyDict.get (PyDict.literal [("none", 1.0); ("mild", 1.15);
                                               ("severe", 1.35)])
                               neck_shoulder_awk 1.0
                  * 1.0)
                 5 100
       /\ score_nzart x y neck_shoulder_awk "neutral" = Some s).
Proof.
  split; [| split; [| split; [| split]]]; intros H;
    unfold score_nzmac, score_nzrapp, score_nzart;
    match type of H with ?k ∉ _ => rewrite (get_unrecognised _ k) by exact H end;
    repeat eexists.
Qed.

Lemma unrecognised_category_is_neutral_witness :
  (exists s, score_nzmac 12 30 "kneeling" "knee" = Some s
             /\ score_nzmac 12 30 "neutral" "knee" = Some s)
  /\ (exists s, score_nzmac 12 30 "kneeling" "overhead" = Some s
             /\ score_nzmac 12 30 "kneeling" "waist" = Some s)
  /\ (exists s, score_nzrapp 12 30 "gravel" 20 = Some s
             /\ score_nzrapp 12 30 "smooth" 20 = Some s)
  /\ (exists s, score_nzart 12 30 "extreme" "kneeling" = Some s
             /\ score_nzart 12 30 "none" "kneeling" = Some s)
  /\ (exists s, score_nzart 12 30 "extreme" "kneeling" = Some s
             /\ score_nzart 12 30 "extreme" "neutral" = Some s).
Proof.
  destruct (unrecognised_category_is_neutral 12 30 20 "kneeling" "knee" "gravel" "extreme")
    as (H1 & _ & H3 & H4 & H5).
  destruct (unrecognised_category_is_neutral 12 30 20 "kneeling" "overhead" "gravel" "extreme")
    as (_ & H2 & _ & _ & _).
  specialize (H1 ltac:(compute_done)). specialize (H2 ltac:(compute_done)).
  specialize (H3 ltac:(compute_done)). specialize (H4 ltac:(compute_done)).
  specialize (H5 ltac:(compute_done)).
  destruct H1 as (? & ? & s1 & _ & _ & Hs1 & _ & Hn1).
  destruct H2 as (? & ? & s2 & _ & _ & Hs2 & _ & Hn2).
  destruct H3 as (? & ? & ? & s3 & _ & _ & _ & Hs3 & _ & Hn3).
  destruct H4 as (? & ? & s4 & _ & _ & Hs4 & _ & Hn4).
  destruct H5 as (? & ? & s5 & _ & _ & Hs5 & _ & Hn5).
  split; [exists s1; split; assumption |].
  split; [exists s2; split; assumption |].
  split; [exists s3; split; assumption |].
  split; [exists s4; split; assumption | exists s5; split; assumption].
Defined.

(** ** Scenario *)

(** The first and third seed rows of [init_state] are what the scorers
    compute, to the unit. *)
Example lifting_scenario :
  exists s, score_nzmac 12 30 "bending" "knee" = Some s
            /\ s == 57.859375
            /\ tier_from_score s DEFAULT_THRESHOLDS = Some "Med-High".
Proof. eexists. split; [vm_compute; reflexivity |]. split; reflexivity. Qed.

Example repetitive_scenario :
  exists s, score_nzart 28 12 "severe" "reaching" = Some s
            /\ s == 76.464
            /\ tier_from_score s DEFAULT_THRESHOLDS = Some "High".
Proof. eexists. split; [vm_compute; reflexivity |]. split; reflexivity. Qed.

(** C3, as stated, fails: the score of
    [score_nzrapp 18 25 "smooth" 20] is not within 5 of 42, and its tier
    is not [Medium]. *)
Lemma push_pull_scenario_not_42 :
  ~ (exists s, score_nzrapp 18 25 "smooth" 20 = Some s
               /\ 42 - 5 <= s <= 42 + 5
               /\ tier_from_score s DEFAULT_THRESHOLDS = Some "Medium").
Proof.
  intros (s & Hs & [_ Hhi] & _).
  vm_compute in Hs. injection Hs as <-.
  revert Hhi. vm_compute. intros H. apply H. reflexivity.
Qed.

(** C3, amended.  [score_nzrapp 18 25 "smooth" 20] returns 56.925, that is
    44 base points times 1.125 for the distance, 1.0 for the surface and
    1.15 for the frequency, and the default thresholds classify it as
    [Med-High]. *)
Theorem push_pull_scenario :
  exists s, score_nzrapp 18 25 "smooth" 20 = Some s
            /\ s == 44 * 1.125 * 1.0 * 1.15
            /\ s == 56.925
            /\ tier_from_score s DEFAULT_THRESHOLDS = Some "Med-High".
Proof.
  eexists. split; [vm_compute; reflexivity |].
  repeat split.
Qed.

(** ** Recommendations *)

Lemma recommendations_cases (tier tool : string) :
  recommendations tier tool
  = if bool_decide (tier ∈ ["Med-High"; "High"])
    then Spec.general_strings else Spec.base_strings.
Proof.
  unfold recommendations.
  destruct (bool_decide (tier ∈ ["Med-High"; "High"])); [| reflexivity].
  destruct (bool_decide (tool = "NZMAC")), (bool_decide (tool = "NZRAPP")),
    (bool_decide (tool = "NZART")); reflexivity.
Qed.

(** C5.  For every tier and tool, [recommendations] returns between one
    and four strings, and for the tier [Low] none of them is a
    tool-specific suggestion. *)
Theorem recommendations_size (tier tool : string) :
  (1 <= length (recommendations tier tool) <= 4)%nat
  /\ Spec.has_tool_specific (recommendations "Low" tool) = false.
Proof.
  rewrite !recommendations_cases. split; [| reflexivity].
  destruct (bool_decide (tier ∈ ["Med-High"; "High"])); cbn; lia.
Qed.

(** C6.  For every tier and tool, the result holds no tool-specific
    suggestion: for [Med-High] and [High] it is the four general strings,
    the appended fifth one being cut by [base[:4]]; for any other tier it
    is the three base strings; so the result does not depend on the
    tool. *)
Theorem recommendations_never_tool_specific (tier tool : string) :
  Spec.has_tool_specific (recommendations tier tool) = false
  /\ (tier ∈ ["Med-High"; "High"] -> recommendations tier tool = Spec.general_strings)
  /\ (tier ∉ ["Med-High"; "High"] -> recommendations tier tool = Spec.base_strings)
  /\ (forall tool', recommendations tier tool' = recommendations tier tool).
Proof.
  rewrite recommendations_cases.
  split; [destruct (bool_decide _); reflexivity |].
  split; [intros H; now rewrite bool_decide_eq_true_2 |].
  split; [intros H; now rewrite bool_decide_eq_false_2 |].
  intros tool'. apply recommendations_cases.
Qed.

Lemma recommendations_never_tool_specific_witness :
  recommendations "High" "NZMAC" = Spec.general_strings
  /\ recommendations "Medium" "NZART" = Spec.base_strings.
Proof.
  destruct (recommendations_never_tool_specific "High" "NZMAC") as (_ & Hhigh & _ & _).
  destruct (recommendations_never_tool_specific "Medium" "NZART") as (_ & _ & Hmed & _).
  split; [apply Hhigh | apply Hmed]; compute_done.
Defined.

(** ** The import handler *)

Lemma lookup_series_None c ss : lookup_series c ss = None <-> c ∉ ss.*1.
Proof.
  induction ss as [| [k vs] ss IH]; cbn.
  - split; [intros _; apply not_elem_of_nil | reflexivity].
  - case_decide as Hk.
    + subst. split; [discriminate | intros H; exfalso; apply H; left].
    + rewrite IH, not_elem_of_cons.
      split; [intros H; split; [congruence | exact H] | intros [_ H]; exact H].
Qed.

Lemma lookup_series_app c ss ss' :
  lookup_series c (ss ++ ss')
  = match lookup_series c ss with Some vs => Some vs | None => lookup_series c ss' end.
Proof.
  induction ss as [| [k vs] ss IH]; cbn; [reflexivity |].
  case_decide; [reflexivity | exact IH].
Qed.

Lemma setitem_fresh (d : DataFrame) (c : string) (v : cell) :
  c ∉ columns d ->
  setitem d c v = mkDataFrame (index_len d) (series d ++ [(c, replicate (index_len d) v)]).
Proof. intros H. unfold setitem. now rewrite bool_decide_eq_false_2. Qed.

Lemma elem_of_cons_ne_decide (c l : string) (labels : list string) :
  l ≠ c -> bool_decide (c ∈ l :: labels) = bool_decide (c ∈ labels).
Proof.
  intros Hlc. apply bool_decide_ext. rewrite elem_of_cons.
  split; [intros [-> | H]; [congruence | exact H] | now right].
Qed.

(** The alignment loop appends, in order, the labels that are missing. *)
Lemma align_columns_over_spec (labels : list string) (d : DataFrame) (c : string) :
  index_len (align_columns_over labels d) = index_len d
  /\ lookup_series c (series (align_columns_over labels d))
     = match lookup_series c (series d) with
       | Some vs => Some vs
       | None => if bool_decide (c ∈ labels)
                 then Some (replicate (index_len d) None) else None
       end.
Proof.
  unfold align_columns_over. revert d.
  induction labels as [| l labels IH]; intros d; cbn [foldl].
  - split; [reflexivity |]. destruct (lookup_series c (series d)); reflexivity.
  - destruct (IH (if bool_decide (l ∉ columns d) then setitem d l None else d))
      as [IHn IHs].
    rewrite IHn, IHs. clear IH IHn IHs.
    case_bool_decide as Hl.
    + rewrite (setitem_fresh _ _ _ Hl). cbn [index_len series].
      split; [reflexivity |].
      rewrite lookup_series_app. cbn [lookup_series].
      destruct (lookup_series c (series d)) eqn:Hc; [reflexivity |].
      case_decide as Hlc.
      * subst. rewrite bool_decide_eq_true_2 by left. reflexivity.
      * now rewrite (elem_of_cons_ne_decide c l labels).
    + split; [reflexivity |].
      destruct (lookup_series c (series d)) eqn:Hc; [reflexivity |].
      apply lookup_series_None in Hc.
      rewrite (elem_of_cons_ne_decide c l labels); [reflexivity |].
      intros ->. exact (Hc Hl).
Qed.

Lemma getitem_all (d : DataFrame) (labels : list string) (f : string -> list cell) :
  (forall c, c ∈ labels -> lookup_series c (series d) = Some (f c)) ->
  getitem d labels = Some (mkDataFrame (index_len d) (map (fun c => (c, f c)) labels)).
Proof.
  intros H. unfold getitem.
  assert (mapM (fun c => vs ← lookup_series c (series d); Some (c, vs)) labels
          = Some (map (fun c => (c, f c)) labels)) as ->; [| reflexivity].
  apply mapM_Some. induction labels as [| l labels IH]; cbn; constructor.
  - rewrite (H l) by left. reflexivity.
  - apply IH. intros c Hc. apply H. now right.
Qed.

Lemma getitem_align_columns (new_df : DataFrame) :
  getitem (align_columns new_df) COLUMNS = Some (Spec.normalized new_df).
Proof.
  unfold Spec.normalized, align_columns.
  destruct (align_columns_over_spec COLUMNS new_df "") as [Hn _].
  rewrite <- Hn at 1.
  apply (getitem_all (align_columns_over COLUMNS new_df) COLUMNS
           (fun c => default (replicate (index_len new_df) None)
                             (lookup_series c (series new_df)))).
  intros c Hc.
  destruct (align_columns_over_spec COLUMNS new_df c) as [_ ->].
  destruct (lookup_series c (series new_df)); [reflexivity |].
  now rewrite bool_decide_eq_true_2.
Qed.

(** C9.  When [pd.read_csv] raises, the handler leaves the session (and so
    the record store) as it was and reports the error; when it returns a
    table, the store becomes that table normalised to [COLUMNS].  After
    the handler the store is therefore either the old one or the whole
    normalised table. *)
Theorem import_csv_all_or_nothing {U E : Type} (read_csv : U -> E + DataFrame)
    (st : session_state) (up : U) :
  (forall e, read_csv up = inl e ->
     import_csv read_csv st (Some up) = (st, Some (error (ReadCsvError e))))
  /\ (forall new_df, read_csv up = inr new_df ->
     import_csv read_csv st (Some up)
     = (mkSession (Spec.normalized new_df) (thresholds st),
        Some (success "✅ Data replaced.")))
  /\ (fst (import_csv read_csv st (Some up)) = st
      \/ exists new_df,
           read_csv up = inr new_df
           /\ fst (import_csv read_csv st (Some up))
              = mkSession (Spec.normalized new_df) (thresholds st)).
Proof.
  unfold import_csv.
  destruct (read_csv up) as [e | new_df].
  - split; [intros ? [= <-]; reflexivity |].
    split; [intros ? [=] | left; reflexivity].
  - rewrite getitem_align_columns.
    split; [intros ? [=] |].
    split; [intros ? [= <-]; reflexivity |].
    right; eexists; split; reflexivity.
Qed.

(** A reader that rejects the empty file, as [pd.read_csv] does with
    [EmptyDataError], and reads anything else as a table with the single
    column [tool]. *)
Lemma import_csv_all_or_nothing_witness :
  let read_csv := fun up : string =>
    if decide (up = "") then inl "EmptyDataError"
    else inr (mkDataFrame 1 [("tool", [Some up])]) in
  let st := mkSession (mkDataFrame 0 []) DEFAULT_THRESHOLDS in
  import_csv read_csv st (Some "") = (st, Some (error (ReadCsvError "EmptyDataError")))
  /\ df (fst (import_csv read_csv st (Some "NZMAC")))
     = Spec.normalized (mkDataFrame 1 [("tool", [Some "NZMAC"])]).
Proof.
  intros read_csv st.
  destruct (import_csv_all_or_nothing read_csv st "") as (Hfail & _ & _).
  destruct (import_csv_all_or_nothing read_csv st "NZMAC") as (_ & Hok & _).
  split.
  - apply Hfail. reflexivity.
  - rewrite (Hok _ eq_refl). reflexivity.
Defined.

(** ** Shape of the scores *)

(** One segment with a non-negative slope. *)
Lemma segment_rising (x0 y0 x1 y1 : Q) :
  x0 < x1 -> y0 <= y1 ->
  let seg := fun x => (y1 - y0) / (x1 - x0) * (x - x0) + y0 in
  (forall x, x0 <= x -> y0 <= seg x)
  /\ (forall x, x <= x1 -> seg x <= y1)
  /\ (forall x x', x <= x' -> seg x <= seg x').
Proof.
  intros Hx Hy seg. subst seg. cbv beta.
  set (s := (y1 - y0) / (x1 - x0)).
  assert (0 <= s) as Hs.
  { apply Qle_shift_div_l; lra. }
  assert (s * (x1 - x0) == y1 - y0) as Hs1.
  { unfold s. field. lra. }
  repeat split; intros; nra.
Qed.

Lemma interp_from_rising_lower (x x0 y0 : Q) (pts : list (Q * Q)) :
  rising x0 y0 pts -> x0 <= x -> y0 <= Numpy.interp_from x x0 y0 pts.
Proof.
  revert x0 y0. induction pts as [| [x1 y1] pts IH]; intros x0 y0 Hr Hx.
  - cbn. lra.
  - destruct Hr as (Hx01 & Hy01 & Hr). cbn [Numpy.interp_from].
    destruct (Qle_bool x1 x) eqn:E.
    + apply Qle_bool_iff in E. specialize (IH x1 y1 Hr E). lra.
    + now apply (segment_rising x0 y0 x1 y1 Hx01 Hy01).
Qed.

Lemma interp_from_rising_mono (x x' x0 y0 : Q) (pts : list (Q * Q)) :
  rising x0 y0 pts -> x0 <= x -> x <= x' ->
  Numpy.interp_from x x0 y0 pts <= Numpy.interp_from x' x0 y0 pts.
Proof.
  revert x0 y0. induction pts as [| [x1 y1] pts IH]; intros x0 y0 Hr Hx Hxx.
  - cbn. lra.
  - destruct Hr as (Hx01 & Hy01 & Hr). cbn [Numpy.interp_from].
    destruct (segment_rising x0 y0 x1 y1 Hx01 Hy01) as (_ & Hup & Hmono).
    destruct (Qle_bool x1 x) eqn:E; destruct (Qle_bool x1 x') eqn:E'.
    + apply Qle_bool_iff in E. now apply IH.
    + apply Qle_bool_iff in E. apply Qle_bool_false in E'. lra.
    + apply Qle_bool_false in E. apply Qle_bool_iff in E'.
      pose proof (interp_from_rising_lower x' x1 y1 pts Hr E').
      specialize (Hup x). lra.
    + now apply Hmono.
Qed.

(** On a rising table the interpolated value never decreases with [x]. *)
Lemma table_value_rising (x x' x0 y0 : Q) (pts : list (Q * Q)) :
  rising x0 y0 pts -> x <= x' ->
  table_value x x0 y0 pts <= table_value x' x0 y0 pts
  /\ y0 <= table_value x x0 y0 pts.
Proof.
  intros Hr Hxx. unfold table_value.
  destruct (Qle_bool x0 x) eqn:E; destruct (Qle_bool x0 x') eqn:E';
    try apply Qle_bool_iff in E; try apply Qle_bool_iff in E';
    try apply Qle_bool_false in E; try apply Qle_bool_false in E'.
  - split; [now apply interp_from_rising_mono | now apply interp_from_rising_lower].
  - lra.
  - split; [now apply interp_from_rising_lower | lra].
  - lra.
Qed.

(** Mirroring the ordinates mirrors the interpolated value. *)
Lemma interp_from_opp (x x0 y0 : Q) (pts : list (Q * Q)) :
  Numpy.interp_from x x0 (- y0) (prod_map id Qopp <$> pts)
  == - Numpy.interp_from x x0 y0 pts.
Proof.
  revert x0 y0. induction pts as [| [x1 y1] pts IH]; intros x0 y0; [reflexivity |].
  cbn [fmap list_fmap prod_map fst snd id Numpy.interp_from].
  destruct (Qle_bool x1 x); [apply IH |]. unfold Qdiv. ring.
Qed.

Lemma falling_opp (x0 y0 : Q) (pts : list (Q * Q)) :
  falling x0 y0 pts -> rising x0 (- y0) (prod_map id Qopp <$> pts).
Proof.
  revert x0 y0. induction pts as [| [x1 y1] pts IH]; intros x0 y0; [done |].
  intros (Hx & Hy & Hf). cbn. repeat split; [exact Hx | lra | now apply IH].
Qed.

(** On a falling table the interpolated value never increases with [x]. *)
Lemma table_value_falling (x x' x0 y0 : Q) (pts : list (Q * Q)) :
  falling x0 y0 pts -> x <= x' ->
  table_value x' x0 y0 pts <= table_value x x0 y0 pts
  /\ table_value x x0 y0 pts <= y0.
Proof.
  intros Hf Hxx.
  destruct (table_value_rising x x' x0 (- y0) _ (falling_opp _ _ _ Hf) Hxx) as [Hm Hl].
  unfold table_value in *.
  pose proof (interp_from_opp x x0 y0 pts).
  pose proof (interp_from_opp x' x0 y0 pts).
  destruct (Qle_bool x0 x), (Qle_bool x0 x'); lra.
Qed.

Lemma segment_falling_lower (x0 y0 x1 y1 x : Q) :
  x0 < x1 -> y1 <= y0 -> x <= x1 ->
  y1 <= (y1 - y0) / (x1 - x0) * (x - x0) + y0.
Proof.
  intros Hx Hy Hxx.
  destruct (segment_rising x0 (- y0) x1 (- y1) Hx ltac:(lra)) as (_ & Hup & _).
  specialize (Hup x Hxx). cbv beta in Hup.
  assert ((- y1 - - y0) / (x1 - x0) * (x - x0) + - y0
          == - ((y1 - y0) / (x1 - x0) * (x - x0) + y0)) as Heq
    by (unfold Qdiv; ring).
  lra.
Qed.

(** On a falling table the value stays above any bound below all the
    ordinates. *)
Lemma table_value_falling_lower (x x0 y0 ymin : Q) (pts : list (Q * Q)) :
  falling x0 y0 pts -> Forall (fun p => ymin <= p.2) ((x0, y0) :: pts) ->
  ymin <= table_value x x0 y0 pts.
Proof.
  unfold table_value. intros Hf Hall.
  apply Forall_cons in Hall as [H0 Hall]. cbn [snd] in H0.
  destruct (Qle_bool x0 x); [| exact H0].
  revert x0 y0 H0 Hf. induction Hall as [| [x1 y1] pts H1 Hall IH];
    intros x0 y0 H0 Hf; [exact H0 |].
  destruct Hf as (Hx & Hy & Hf). cbn [snd] in H1. cbn [Numpy.interp_from].
  destruct (Qle_bool x1 x) eqn:E; [now apply IH |].
  apply Qle_bool_false in E.
  pose proof (segment_falling_lower x0 y0 x1 y1 x Hx Hy ltac:(lra)). lra.
Qed.

(** Monotonicity of the clamp and of a product of four non-negative
    factors. *)
Lemma clip_mono (a b lo hi : Q) : a <= b -> Numpy.clip a lo hi <= Numpy.clip b lo hi.
Proof.
  intros H. unfold Numpy.clip.
  apply Q.min_le_compat_l, Q.max_le_compat_r, H.
Qed.

Lemma product4_mono (a b c d a' b' c' d' : Q) :
  0 <= a <= a' -> 0 <= b <= b' -> 0 <= c <= c' -> 0 <= d <= d' ->
  a * b * c * d <= a' * b' * c' * d'.
Proof.
  intros Ha Hb Hc Hd.
  assert (0 <= a * b <= a' * b') by nra.
  assert (0 <= a * b * c <= a' * b' * c') by nra.
  nra.
Qed.

Ltac table_shape := cbn; repeat split; lra.

Lemma multiplier_ge_1 :
  (forall k, 1 <= PyDict.get (PyDict.literal [("neutral", 1.0); ("bending", 1.15);
                                ("twisting", 1.2); ("reaching", 1.1)]) k 1.0)
  /\ (forall k, 1 <= PyDict.get (PyDict.literal [("floor", 1.25); ("knee", 1.15);
                                ("waist", 1.0); ("shoulder", 1.2)]) k 1.0)
  /\ (forall k, 1 <= PyDict.get (PyDict.literal [("smooth", 1.0); ("rough", 1.15)]) k 1.0)
  /\ (forall k, 1 <= PyDict.get (PyDict.literal [("none", 1.0); ("mild", 1.15);
                                ("severe", 1.35)]) k 1.0)
  /\ (forall k, 1 <= PyDict.get (PyDict.literal [("neutral", 1.0); ("bending", 1.1);
                                ("twisting", 1.15); ("reaching", 1.2)]) k 1.0).
Proof.
  repeat split; intros k; dict_get; repeat case_decide; lra.
Qed.

Lemma score_nzmac_value (load_kg frequency_per_hr : Q) (posture lift_height : string) :
  score_nzmac load_kg frequency_per_hr posture lift_height
  = Some (Numpy.clip
      (table_value load_kg 0 5 [(5, 15); (10, 30); (20, 55); (35, 75)]
       * table_value frequency_per_hr 0 1.0 [(10, 1.1); (30, 1.25); (60, 1.4)]
       * PyDict.get (PyDict.literal [("neutral", 1.0); ("bending", 1.15);
                                     ("twisting", 1.2); ("reaching", 1.1)]) posture 1.0
       * PyDict.get (PyDict.literal [("floor", 1.25); ("knee", 1.15);
                                     ("waist", 1.0); ("shoulder", 1.2)]) lift_height 1.0)
      5 100).
Proof. reflexivity. Qed.

Lemma score_nzrapp_value (push_pull_force_kg distance_m : Q) (surface : string)
    (frequency_per_hr : Q) :
  score_nzrapp push_pull_force_kg distance_m surface frequency_per_hr
  = Some (Numpy.clip
      (table_value push_pull_force_kg 0 5 [(5, 15); (10, 28); (20, 48); (35, 70)]
       * table_value distance_m 0 1.0 [(10, 1.05); (30, 1.15); (60, 1.25)]
       * PyDict.get (PyDict.literal [("smooth", 1.0); ("rough", 1.15)]) surface 1.0
       * table_value frequency_per_hr 0 1.0 [(10, 1.1); (30, 1.2); (60, 1.3)])
      5 100).
Proof. reflexivity. Qed.

Lemma score_nzart_value (reps_per_min cycle_time_sec : Q)
    (neck_shoulder_awk posture : string) :
  score_nzart reps_per_min cycle_time_sec neck_shoulder_awk posture
  = Some (Numpy.clip
      (table_value reps_per_min 0 5 [(10, 15); (20, 30); (40, 55); (60, 75)]
       * table_value cycle_time_sec 5 1.25 [(20, 1.1); (60, 1.0)]
       * PyDict.get (PyDict.literal [("none", 1.0); ("mild", 1.15); ("severe", 1.35)])
                    neck_shoulder_awk 1.0
       * PyDict.get (PyDict.literal [("neutral", 1.0); ("bending", 1.1);
                                     ("twisting", 1.15); ("reaching", 1.2)]) posture 1.0)
      5 100).
Proof. reflexivity. Qed.

(** X1.  The lifting score never decreases when the load or the frequency
    increases, posture and lift height being the same. *)
Theorem score_nzmac_monotone (load_kg load_kg' frequency_per_hr frequency_per_hr' : Q)
    (posture lift_height : string) :
  load_kg <= load_kg' -> frequency_per_hr <= frequency_per_hr' ->
  exists s s',
    score_nzmac load_kg frequency_per_hr posture lift_height = Some s
    /\ score_nzmac load_kg' frequency_per_hr' posture lift_height = Some s'
    /\ s <= s'.
Proof.
  intros Hl Hf. rewrite !score_nzmac_value. do 2 eexists. do 2 (split; [reflexivity |]).
  destruct multiplier_ge_1 as (Hp & Hh & _).
  pose proof (Hp posture). pose proof (Hh lift_height).
  destruct (table_value_rising load_kg load_kg' 0 5
              [(5, 15); (10, 30); (20, 55); (35, 75)] ltac:(table_shape) Hl).
  destruct (table_value_rising frequency_per_hr frequency_per_hr' 0 1.0
              [(10, 1.1); (30, 1.25); (60, 1.4)] ltac:(table_shape) Hf).
  apply clip_mono, product4_mono; lra.
Qed.

Lemma score_nzmac_monotone_witness :
  exists s s',
    score_nzmac 8 20 "bending" "knee" = Some s
    /\ score_nzmac 12 30 "bending" "knee" = Some s'
    /\ s <= s'.
Proof. apply (score_nzmac_monotone 8 12 20 30 "bending" "knee"); lra. Defined.

(** X2.  The push/pull score never decreases when the force, the distance
    or the frequency increases, the surface being the same. *)
Theorem score_nzrapp_monotone
    (push_pull_force_kg push_pull_force_kg' distance_m distance_m' : Q) (surface : string)
    (frequency_per_hr frequency_per_hr' : Q) :
  push_pull_force_kg <= push_pull_force_kg' -> distance_m <= distance_m' ->
  frequency_per_hr <= frequency_per_hr' ->
  exists s s',
    score_nzrapp push_pull_force_kg distance_m surface frequency_per_hr = Some s
    /\ score_nzrapp push_pull_force_kg' distance_m' surface frequency_per_hr' = Some s'
    /\ s <= s'.
Proof.
  intros Hp Hd Hf. rewrite !score_nzrapp_value. do 2 eexists.
  do 2 (split; [reflexivity |]).
  destruct multiplier_ge_1 as (_ & _ & Hs & _). pose proof (Hs surface).
  destruct (table_value_rising push_pull_force_kg push_pull_force_kg' 0 5
              [(5, 15); (10, 28); (20, 48); (35, 70)] ltac:(table_shape) Hp).
  destruct (table_value_rising distance_m distance_m' 0 1.0
              [(10, 1.05); (30, 1.15); (60, 1.25)] ltac:(table_shape) Hd).
  destruct (table_value_rising frequency_per_hr frequency_per_hr' 0 1.0
              [(10, 1.1); (30, 1.2); (60, 1.3)] ltac:(table_shape) Hf).
  apply clip_mono, product4_mono; lra.
Qed.

Lemma score_nzrapp_monotone_witness :
  exists s s',
    score_nzrapp 18 25 "rough" 20 = Some s
    /\ score_nzrapp 22 25 "rough" 40 = Some s'
    /\ s <= s'.
Proof. apply (score_nzrapp_monotone 18 22 25 25 "rough" 20 40); lra. Defined.

(** X3.  The repetitive-work score never decreases when the repetitions
    per minute increase or the cycle time gets shorter, the two
    categories being the same. *)
Theorem score_nzart_monotone
    (reps_per_min reps_per_min' cycle_time_sec cycle_time_sec' : Q)
    (neck_shoulder_awk posture : string) :
  reps_per_min <= reps_per_min' -> cycle_time_sec' <= cycle_time_sec ->
  exists s s',
    score_nzart reps_per_min cycle_time_sec neck_shoulder_awk posture = Some s
    /\ score_nzart reps_per_min' cycle_time_sec' neck_shoulder_awk posture = Some s'
    /\ s <= s'.
Proof.
  intros Hr Hc. rewrite !score_nzart_value. do 2 eexists.
  do 2 (split; [reflexivity |]).
  destruct multiplier_ge_1 as (_ & _ & _ & Hn & Hp).
  pose proof (Hn neck_shoulder_awk). pose proof (Hp posture).
  destruct (table_value_rising reps_per_min reps_per_min' 0 5
              [(10, 15); (20, 30); (40, 55); (60, 75)] ltac:(table_shape) Hr).
  destruct (table_value_falling cycle_time_sec' cycle_time_sec 5 1.25
              [(20, 1.1); (60, 1.0)] ltac:(table_shape) Hc) as [Hcm _].
  pose proof (table_value_falling_lower cycle_time_sec 5 1.25 1
              [(20, 1.1); (60, 1.0)] ltac:(table_shape)
              ltac:(repeat constructor; cbn; lra)).
  apply clip_mono, product4_mono; lra.
Qed.

Lemma score_nzart_monotone_witness :
  exists s s',
    score_nzart 28 12 "mild" "reaching" = Some s
    /\ score_nzart 35 8 "mild" "reaching" = Some s'
    /\ s <= s'.
Proof. apply (score_nzart_monotone 28 35 12 8 "mild" "reaching"); lra. Defined.

Lemma base_points_ge_5 (x : Q) :
  5 <= table_value x 0 5 [(5, 15); (10, 30); (20, 55); (35, 75)]
  /\ 5 <= table_value x 0 5 [(5, 15); (10, 28); (20, 48); (35, 70)]
  /\ 5 <= table_value x 0 5 [(10, 15); (20, 30); (40, 55); (60, 75)].
Proof.
  repeat split; apply (table_value_rising x x); first [table_shape | lra].
Qed.

Lemma table_multiplier_ge_1 (x : Q) :
  1 <= table_value x 0 1.0 [(10, 1.1); (30, 1.25); (60, 1.4)]
  /\ 1 <= table_value x 0 1.0 [(10, 1.05); (30, 1.15); (60, 1.25)]
  /\ 1 <= table_value x 0 1.0 [(10, 1.1); (30, 1.2); (60, 1.3)]
  /\ 1 <= table_value x 5 1.25 [(20, 1.1); (60, 1.0)].
Proof.
  split; [| split; [| split]].
  4: { apply table_value_falling_lower; [table_shape | repeat constructor; cbn; lra]. }
  all: match goal with |- _ <= table_value _ _ _ ?pts =>
         destruct (table_value_rising x x 0 1.0 pts ltac:(table_shape) ltac:(lra)) end;
       lra.
Qed.

Lemma neutral_multiplier :
  PyDict.get (PyDict.literal [("neutral", 1.0); ("bending", 1.15);
                              ("twisting", 1.2); ("reaching", 1.1)]) "neutral" 1.0 = 1.0
  /\ PyDict.get (PyDict.literal [("floor", 1.25); ("knee", 1.15);
                              ("waist", 1.0); ("shoulder", 1.2)]) "waist" 1.0 = 1.0
  /\ PyDict.get (PyDict.literal [("smooth", 1.0); ("rough", 1.15)]) "smooth" 1.0 = 1.0
  /\ PyDict.get (PyDict.literal [("none", 1.0); ("mild", 1.15); ("severe", 1.35)])
                "none" 1.0 = 1.0
  /\ PyDict.get (PyDict.literal [("neutral", 1.0); ("bending", 1.1);
                              ("twisting", 1.15); ("reaching", 1.2)]) "neutral" 1.0 = 1.0.
Proof. repeat split. Qed.

(** X4.  Whatever the categories passed, recognised or not, the score is
    at least the one obtained with [neutral] posture, [waist] height,
    [smooth] surface and [none] neck/shoulder awkwardness: no category
    lowers a score. *)
Theorem neutral_categories_score_lowest
    (x y z : Q) (posture lift_height surface neck_shoulder_awk : string) :
  (exists s0 s, score_nzmac x y "neutral" "waist" = Some s0
                /\ score_nzmac x y posture lift_height = Some s /\ s0 <= s)
  /\ (exists s0 s, score_nzrapp x y "smooth" z = Some s0
                /\ score_nzrapp x y surface z = Some s /\ s0 <= s)
  /\ (exists s0 s, score_nzart x y "none" "neutral" = Some s0
                /\ score_nzart x y neck_shoulder_awk posture = Some s /\ s0 <= s).
Proof.
  destruct multiplier_ge_1 as (Hp & Hh & Hs & Hn & Hp').
  pose proof (Hp posture). pose proof (Hh lift_height). pose proof (Hs surface).
  pose proof (Hn neck_shoulder_awk). pose proof (Hp' posture).
  destruct (base_points_ge_5 x) as (? & ? & ?).
  destruct (table_multiplier_ge_1 y) as (? & ? & ? & ?).
  destruct (table_multiplier_ge_1 z) as (? & ? & ? & ?).
  rewrite !score_nzmac_value, !score_nzrapp_value, !score_nzart_value.
  destruct neutral_multiplier as (-> & -> & -> & -> & ->).
  split; [| split]; do 2 eexists; do 2 (split; [reflexivity |]);
    apply clip_mono, product4_mono; lra.
Qed.

Lemma product4_ge (b m1 m2 m3 : Q) :
  0 <= b -> 1 <= m1 -> 1 <= m2 -> 1 <= m3 -> b <= b * m1 * m2 * m3.
Proof.
  intros Hb H1 H2 H3.
  assert (b <= b * m1) by nra.
  assert (b <= b * m1 * m2) by nra.
  nra.
Qed.

Lemma clip_above_base (b raw : Q) : b <= raw -> Qmin 100 b <= Numpy.clip raw 5 100.
Proof.
  intros H. unfold Numpy.clip. apply Q.min_le_compat_l.
  apply Qle_trans with raw; [exact H | apply Q.le_max_l].
Qed.

Lemma clip_without_floor (raw : Q) : 5 <= raw -> Numpy.clip raw 5 100 == Qmin 100 raw.
Proof. intros H. unfold Numpy.clip. now rewrite (Q.max_l raw 5). Qed.

(** X5.  In each scorer the product handed to the clamp is never below 5,
    so the lower bound of the clamp never decides the score: the score is
    the smaller of 100 and that product.  It is therefore at least the
    base points interpolated from the primary input (load, force,
    repetitions), capped at 100: the other factors only add to it. *)
Theorem score_at_least_base_points (x y z : Q) (c1 c2 : string) :
  (exists load_points freq_mult s,
      Numpy.interp x [0; 5; 10; 20; 35] [5; 15; 30; 55; 75] = Some load_points
      /\ Numpy.interp y [0; 10; 30; 60] [1.0; 1.1; 1.25; 1.4] = Some freq_mult
      /\ score_nzmac x y c1 c2 = Some s
      /\ (let raw :=
            load_points * freq_mult
            * PyDict.get (PyDict.literal [("neutral", 1.0); ("bending", 1.15);
                                          ("twisting", 1.2); ("reaching", 1.1)]) c1 1.0
            * PyDict.get (PyDict.literal [("floor", 1.25); ("knee", 1.15);
                                          ("waist", 1.0); ("shoulder", 1.2)]) c2 1.0 in
          5 <= raw /\ s == Qmin 100 raw)
      /\ Qmin 100 load_points <= s)
  /\ (exists force_points dist_mult freq_mult s,
      Numpy.interp x [0; 5; 10; 20; 35] [5; 15; 28; 48; 70] = Some force_points
      /\ Numpy.interp y [0; 10; 30; 60] [1.0; 1.05; 1.15; 1.25] = Some dist_mult
      /\ Numpy.interp z [0; 10; 30; 60] [1.0; 1.1; 1.2; 1.3] = Some freq_mult
      /\ score_nzrapp x y c1 z = Some s
      /\ (let raw :=
            force_points * dist_mult
            * PyDict.get (PyDict.literal [("smooth", 1.0); ("rough", 1.15)]) c1 1.0
            * freq_mult in
          5 <= raw /\ s == Qmin 100 raw)
      /\ Qmin 100 force_points <= s)
  /\ (exists rep_points cycle_adj s,
      Numpy.interp x [0; 10; 20; 40; 60] [5; 15; 30; 55; 75] = Some rep_points
      /\ Numpy.interp y [5; 20; 60] [1.25; 1.1; 1.0] = Some cycle_adj
      /\ score_nzart x y c1 c2 = Some s
      /\ (let raw :=
            rep_points * cycle_adj
            * PyDict.get (PyDict.literal [("none", 1.0); ("mild", 1.15);
                                          ("severe", 1.35)]) c1 1.0
            * PyDict.get (PyDict.literal [("neutral", 1.0); ("bending", 1.1);
                                          ("twisting", 1.15); ("reaching", 1.2)]) c2 1.0 in
          5 <= raw /\ s == Qmin 100 raw)
      /\ Qmin 100 rep_points <= s).
Proof.
  destruct multiplier_ge_1 as (Hp & Hh & Hs & Hn & Hp').
  pose proof (Hp c1). pose proof (Hh c2). pose proof (Hs c1).
  pose proof (Hn c1). pose proof (Hp' c2).
  destruct (base_points_ge_5 x) as (? & ? & ?).
  destruct (table_multiplier_ge_1 y) as (? & ? & ? & ?).
  destruct (table_multiplier_ge_1 z) as (? & ? & ? & ?).
  rewrite score_nzmac_value, score_nzrapp_value, score_nzart_value.
  split; [| split].
  - exists (table_value x 0 5 [(5, 15); (10, 30); (20, 55); (35, 75)]),
      (table_value y 0 1.0 [(10, 1.1); (30, 1.25); (60, 1.4)]).
    eexists. do 3 (split; [reflexivity |]).
    split; [| apply clip_above_base, product4_ge; lra].
    cbv zeta. match goal with |- 5 <= ?raw /\ _ => assert (5 <= raw) as Hraw end.
    { eapply Qle_trans; [| apply product4_ge; lra]. lra. }
    split; [exact Hraw | now apply clip_without_floor].
  - exists (table_value x 0 5 [(5, 15); (10, 28); (20, 48); (35, 70)]),
      (table_value y 0 1.0 [(10, 1.05); (30, 1.15); (60, 1.25)]),
      (table_value z 0 1.0 [(10, 1.1); (30, 1.2); (60, 1.3)]).
    eexists. do 4 (split; [reflexivity |]).
    split; [| apply clip_above_base, product4_ge; lra].
    cbv zeta. match goal with |- 5 <= ?raw /\ _ => assert (5 <= raw) as Hraw end.
    { eapply Qle_trans; [| apply product4_ge; lra]. lra. }
    split; [exact Hraw | now apply clip_without_floor].
  - exists (table_value x 0 5 [(10, 15); (20, 30); (40, 55); (60, 75)]),
      (table_value y 5 1.25 [(20, 1.1); (60, 1.0)]).
    eexists. do 3 (split; [reflexivity |]).
    split; [| apply clip_above_base, product4_ge; lra].
    cbv zeta. match goal with |- 5 <= ?raw /\ _ => assert (5 <= raw) as Hraw end.
    { eapply Qle_trans; [| apply product4_ge; lra]. lra. }
    split; [exact Hraw | now apply clip_without_floor].
Qed.

(** ** Scores and tiers together *)

Lemma high_from_70 (s : Q) : 70 <= s -> tier_from_score s DEFAULT_THRESHOLDS = Some "High".
Proof.
  intros H. change DEFAULT_THRESHOLDS with (threshold_set 70 50 35).
  rewrite tier_from_score_cascade. apply Qle_bool_iff in H. now rewrite H.
Qed.

(** X6.  With the default thresholds, a load or force of 35 kg or more,
    or 60 repetitions per minute or more, is classified [High] whatever
    the other inputs. *)
Theorem top_of_table_is_high (x y z : Q) (c1 c2 : string) :
  (35 <= x -> exists s, score_nzmac x y c1 c2 = Some s
                        /\ tier_from_score s DEFAULT_THRESHOLDS = Some "High")
  /\ (35 <= x -> exists s, score_nzrapp x y c1 z = Some s
                        /\ tier_from_score s DEFAULT_THRESHOLDS = Some "High")
  /\ (60 <= x -> exists s, score_nzart x y c1 c2 = Some s
                        /\ tier_from_score s DEFAULT_THRESHOLDS = Some "High").
Proof.
  destruct multiplier_ge_1 as (Hp & Hh & Hs & Hn & Hp').
  pose proof (Hp c1). pose proof (Hh c2). pose proof (Hs c1).
  pose proof (Hn c1). pose proof (Hp' c2).
  destruct (table_multiplier_ge_1 y) as (? & ? & ? & ?).
  destruct (table_multiplier_ge_1 z) as (? & ? & ? & ?).
  rewrite score_nzmac_value, score_nzrapp_value, score_nzart_value.
  split; [| split]; intros Hx; (eexists; split; [reflexivity |]);
    apply high_from_70;
    (apply Qle_trans with (Qmin 100 70); [now vm_compute |]);
    apply clip_above_base.
  - destruct (table_value_rising 35 x 0 5 [(5, 15); (10, 30); (20, 55); (35, 75)]
                ltac:(table_shape) Hx) as [Hm _].
    assert (table_value 35 0 5 [(5, 15); (10, 30); (20, 55); (35, 75)] == 75) as E
      by reflexivity.
    rewrite E in Hm.
    apply Qle_trans with (table_value x 0 5 [(5, 15); (10, 30); (20, 55); (35, 75)]);
      [lra | apply product4_ge; lra].
  - destruct (table_value_rising 35 x 0 5 [(5, 15); (10, 28); (20, 48); (35, 70)]
                ltac:(table_shape) Hx) as [Hm _].
    assert (table_value 35 0 5 [(5, 15); (10, 28); (20, 48); (35, 70)] == 70) as E
      by reflexivity.
    rewrite E in Hm.
    apply Qle_trans with (table_value x 0 5 [(5, 15); (10, 28); (20, 48); (35, 70)]);
      [lra | apply product4_ge; lra].
  - destruct (table_value_rising 60 x 0 5 [(10, 15); (20, 30); (40, 55); (60, 75)]
                ltac:(table_shape) Hx) as [Hm _].
    assert (table_value 60 0 5 [(10, 15); (20, 30); (40, 55); (60, 75)] == 75) as E
      by reflexivity.
    rewrite E in Hm.
    apply Qle_trans with (table_value x 0 5 [(10, 15); (20, 30); (40, 55); (60, 75)]);
      [lra | apply product4_ge; lra].
Qed.

Lemma top_of_table_is_high_witness :
  (exists s, score_nzmac 40 0 "neutral" "waist" = Some s
             /\ tier_from_score s DEFAULT_THRESHOLDS = Some "High")
  /\ (exists s, score_nzrapp 35 0 "smooth" 0 = Some s
             /\ tier_from_score s DEFAULT_THRESHOLDS = Some "High")
  /\ (exists s, score_nzart 60 100 "none" "neutral" = Some s
             /\ tier_from_score s DEFAULT_THRESHOLDS = Some "High").
Proof.
  destruct (top_of_table_is_high 40 0 0 "neutral" "waist") as (H1 & _ & _).
  destruct (top_of_table_is_high 35 0 0 "smooth" "") as (_ & H2 & _).
  destruct (top_of_table_is_high 60 100 0 "none" "neutral") as (_ & _ & H3).
  split; [apply H1; lra |]. split; [apply H2; lra | apply H3; lra].
Defined.

(** ** More on the tier classifier *)

(** X7.  The classifier raises [KeyError] exactly when a key it gets to
    read is missing: [high] always, [med_high] only when the score is
    below [high], [med] only when the score is below both.  The keys are
    read lazily, so a dict with [high] alone still classifies the scores
    at or above it. *)
Theorem tier_from_score_key_error (score : Q) (thres : gmap string Q) :
  tier_from_score score thres = None
  <-> thres !! "high" = None
      \/ (exists high, thres !! "high" = Some high /\ score < high
                       /\ thres !! "med_high" = None)
      \/ (exists high med_high,
             thres !! "high" = Some high /\ score < high
             /\ thres !! "med_high" = Some med_high /\ score < med_high
             /\ thres !! "med" = None).
Proof.
  unfold tier_from_score, ge_threshold, PyDict.item.
  destruct (thres !! "high") as [high |]; cbn [mbind option_bind];
    [| split; [now left | reflexivity]].
  destruct (Qle_bool high score) eqn:Eh.
  { apply Qle_bool_iff in Eh. split; [discriminate |].
    intros [H | [(h & [= <-] & Hlt & _) | (h & mh & [= <-] & Hlt & _)]];
      [discriminate | lra | lra]. }
  apply Qle_bool_false in Eh.
  destruct (thres !! "med_high") as [med_high |]; cbn [mbind option_bind];
    [| split; [intros _; right; left; eauto | reflexivity]].
  destruct (Qle_bool med_high score) eqn:Em.
  { apply Qle_bool_iff in Em. split; [discriminate |].
    intros [H | [(h & _ & _ & H) | (h & mh & _ & _ & [= <-] & Hlt & _)]];
      [discriminate | discriminate | lra]. }
  apply Qle_bool_false in Em.
  destruct (thres !! "med") as [med |]; cbn [mbind option_bind].
  - split.
    + destruct (Qle_bool med score); discriminate.
    + intros [H | [(h & _ & _ & H) | (h & mh & _ & _ & _ & _ & H)]]; discriminate.
  - split; [intros _; right; right; eauto 10 | reflexivity].
Qed.

Lemma tier_from_score_key_error_witness :
  tier_from_score 60 (PyDict.literal [("high", 70)]) = None.
Proof.
  apply tier_from_score_key_error. right; left. exists 70.
  split; [reflexivity |]. split; [lra | reflexivity].
Defined.

(** X8.  Raising thresholds never raises the tier of a given score. *)
Theorem tier_from_score_thresholds_antitone
    (score high med_high med high' med_high' med' : Q) :
  high <= high' -> med_high <= med_high' -> med <= med' ->
  exists t t',
    tier_from_score score (threshold_set high med_high med) = Some t
    /\ tier_from_score score (threshold_set high' med_high' med') = Some t'
    /\ (Spec.tier_rank t' <= Spec.tier_rank t)%nat.
Proof.
  intros Hh Hmh Hm. do 2 eexists.
  split; [apply tier_from_score_classify |].
  split; [apply tier_from_score_classify |].
  unfold Spec.classify_tier.
  q_cases; try lra; vm_compute; lia.
Qed.

Lemma tier_from_score_thresholds_antitone_witness :
  exists t t',
    tier_from_score 60 (threshold_set 70 50 35) = Some t
    /\ tier_from_score 60 (threshold_set 80 65 35) = Some t'
    /\ (Spec.tier_rank t' <= Spec.tier_rank t)%nat.
Proof. apply (tier_from_score_thresholds_antitone 60 70 50 35 80 65 35); lra. Defined.

(** X9.  Classifying a score and asking for the recommendations of the
    tier obtained gives the four general strings, engineering controls
    first, exactly when the score reaches [high] or [med_high], and the
    three base strings otherwise. *)
Theorem recommendations_for_score (score high med_high med : Q) (tool : string) :
  exists t,
    tier_from_score score (threshold_set high med_high med) = Some t
    /\ (high <= score \/ med_high <= score ->
        recommendations t tool = Spec.general_strings)
    /\ (score < high /\ score < med_high ->
        recommendations t tool = Spec.base_strings).
Proof.
  eexists. split; [apply tier_from_score_cascade |].
  rewrite recommendations_cases.
  q_cases; split; intros; try reflexivity; lra.
Qed.

Lemma recommendations_for_score_witness :
  exists t, tier_from_score 56.925 DEFAULT_THRESHOLDS = Some t
            /\ recommendations t "NZRAPP" = Spec.general_strings.
Proof.
  destruct (recommendations_for_score 56.925 70 50 35 "NZRAPP") as (t & Ht & Hg & _).
  exists t. split; [exact Ht | apply Hg; right; lra].
Defined.

(** ** More on the import handler *)

Lemma COLUMNS_NoDup : NoDup COLUMNS.
Proof. compute_done. Qed.

Lemma filter_missing_snoc (l : string) (v : list cell)
    (ss : list (string * list cell)) (labels : list string) :
  l ∉ labels ->
  filter (fun c => c ∉ (ss ++ [(l, v)])%list.*1) labels
  = filter (fun c => c ∉ ss.*1) labels.
Proof.
  induction labels as [| a labels IH]; intros Hl; [reflexivity |].
  apply not_elem_of_cons in Hl as [Hal Hl].
  rewrite !filter_cons, (IH Hl).
  assert (a ∉ (ss ++ [(l, v)])%list.*1 <-> a ∉ ss.*1) as Hiff.
  { rewrite fmap_app, elem_of_app. cbn. rewrite list_elem_of_singleton.
    split; [intros H H'; apply H; now left | intros H [H' | H']; [exact (H H') | congruence]]. }
  destruct (decide (a ∉ (ss ++ [(l, v)])%list.*1)) as [H1 | H1],
    (decide (a ∉ ss.*1)) as [H2 | H2]; try reflexivity; exfalso.
  - apply H2, Hiff, H1.
  - apply H1, Hiff, H2.
Qed.

(** The loop leaves the parsed columns as they are and appends, in the
    order of the labels, a missing-value column for each label the table
    lacks. *)
Lemma align_columns_over_series (labels : list string) (d : DataFrame) :
  NoDup labels ->
  index_len (align_columns_over labels d) = index_len d
  /\ series (align_columns_over labels d)
     = (series d ++ map (fun c => (c, replicate (index_len d) None))
                        (filter (fun c => c ∉ columns d) labels))%list.
Proof.
  unfold align_columns_over. revert d.
  induction labels as [| l labels IH]; intros d Hnd; cbn [foldl].
  - rewrite filter_nil. cbn. now rewrite app_nil_r.
  - apply NoDup_cons in Hnd as [Hl Hnd].
    case_bool_decide as Hld.
    + destruct (IH (setitem d l None) Hnd) as [-> ->].
      rewrite (setitem_fresh _ _ _ Hld). cbn [series index_len].
      split; [reflexivity |].
      rewrite filter_cons_True by exact Hld. rewrite <- app_assoc. cbn [map app].
      unfold columns. cbn [series].
      now rewrite (filter_missing_snoc l _ (series d) labels Hl).
    + destruct (IH d Hnd) as [-> ->]. split; [reflexivity |].
      rewrite filter_cons_False; [reflexivity |].
      intros H. exact (H Hld).
Qed.

(** X10.  The alignment loop of the import keeps the row count and the
    parsed columns as they are, and appends after them one all-missing
    column for each label of [COLUMNS] the table lacks, in the order of
    [COLUMNS]. *)
Theorem align_columns_appends_missing (new_df : DataFrame) :
  index_len (align_columns new_df) = index_len new_df
  /\ series (align_columns new_df)
     = (series new_df
        ++ map (fun c => (c, replicate (index_len new_df) None))
               (filter (fun c => c ∉ columns new_df) COLUMNS))%list.
Proof. apply align_columns_over_series, COLUMNS_NoDup. Qed.

Lemma import_csv_success {U E : Type} (read_csv : U -> E + DataFrame)
    (st : session_state) (up : U) (new_df : DataFrame) :
  read_csv up = inr new_df ->
  import_csv read_csv st (Some up)
  = (mkSession (Spec.normalized new_df) (thresholds st),
     Some (success "✅ Data replaced.")).
Proof. intros H. unfold import_csv. now rewrite H, getitem_align_columns. Qed.

Lemma lookup_series_map (f : string -> list cell) (labels : list string) (c : string) :
  lookup_series c (map (fun c => (c, f c)) labels)
  = if bool_decide (c ∈ labels) then Some (f c) else None.
Proof.
  induction labels as [| l labels IH]; [reflexivity |].
  cbn [map lookup_series]. destruct (decide (l = c)) as [-> | Hl].
  - now rewrite bool_decide_eq_true_2 by left.
  - now rewrite IH, (elem_of_cons_ne_decide c l labels Hl).
Qed.

(** X11.  After a successful import the stored table has exactly the
    columns of [COLUMNS] in that order and as many rows as the parsed
    table; a schema column the file has keeps its cells, one it lacks is
    all missing values, columns outside the schema are gone; the
    thresholds are untouched. *)
Theorem import_csv_stored_table {U E : Type} (read_csv : U -> E + DataFrame)
    (st : session_state) (up : U) (new_df : DataFrame) :
  read_csv up = inr new_df ->
  let st' := fst (import_csv read_csv st (Some up)) in
  columns (df st') = COLUMNS
  /\ index_len (df st') = index_len new_df
  /\ (forall c, c ∈ COLUMNS ->
        lookup_series c (series (df st'))
        = Some (default (replicate (index_len new_df) None)
                        (lookup_series c (series new_df))))
  /\ (forall c, c ∉ COLUMNS -> lookup_series c (series (df st')) = None)
  /\ thresholds st' = thresholds st.
Proof.
  intros H st'. subst st'. rewrite (import_csv_success _ _ _ _ H).
  cbn [fst df thresholds]. unfold Spec.normalized. cbn [index_len series].
  split; [reflexivity |]. split; [reflexivity |].
  split; [| split; [| reflexivity]]; intros c Hc; rewrite lookup_series_map.
  - now rewrite bool_decide_eq_true_2.
  - now rewrite bool_decide_eq_false_2.
Qed.

Lemma import_csv_stored_table_witness :
  let read_csv := fun up : string =>
    if decide (up = "") then inl "EmptyDataError"
    else inr (mkDataFrame 1 [("tool", [Some up]); ("note", [None])]) in
  let st := mkSession (mkDataFrame 0 []) DEFAULT_THRESHOLDS in
  let st' := fst (import_csv read_csv st (Some "NZMAC")) in
  lookup_series "tool" (series (df st')) = Some [Some "NZMAC"]
  /\ lookup_series "posture" (series (df st')) = Some [None]
  /\ lookup_series "note" (series (df st')) = None.
Proof.
  intros read_csv st st'.
  destruct (import_csv_stored_table read_csv st "NZMAC"
              (mkDataFrame 1 [("tool", [Some "NZMAC"]); ("note", [None])]) eq_refl)
    as (_ & _ & Hin & Hout & _).
  split; [apply Hin; compute_done |].
  split; [apply Hin; compute_done | apply Hout; compute_done].
Defined.

Lemma lookup_series_elem (ss : list (string * list cell)) (k : string) (v : list cell) :
  NoDup ss.*1 -> (k, v) ∈ ss -> lookup_series k ss = Some v.
Proof.
  induction ss as [| [k' v'] ss IH]; intros Hnd Hin.
  - now apply elem_of_nil in Hin.
  - cbn in Hnd. apply NoDup_cons in Hnd as [Hk' Hnd]. cbn [lookup_series].
    apply elem_of_cons in Hin as [[= -> ->] | Hin].
    + now rewrite decide_True.
    + rewrite decide_False; [now apply IH |].
      intros ->. apply Hk'. apply list_elem_of_fmap. now exists (k, v).
Qed.

Lemma relabel_self (dflt : list cell) (ss0 ss : list (string * list cell)) :
  (forall k v, (k, v) ∈ ss -> lookup_series k ss0 = Some v) ->
  map (fun c => (c, default dflt (lookup_series c ss0))) ss.*1 = ss.
Proof.
  induction ss as [| [k v] ss IH]; intros H; [reflexivity |].
  cbn. rewrite (H k v) by left. cbn. f_equal.
  apply IH. intros k' v' Hin. apply H. now right.
Qed.

Lemma normalized_exact_schema (d : DataFrame) :
  columns d = COLUMNS -> Spec.normalized d = d.
Proof.
  intros Hc. unfold Spec.normalized. rewrite <- Hc. unfold columns.
  rewrite (relabel_self _ (series d) (series d)); [now destruct d |].
  intros k v. apply lookup_series_elem.
  change (NoDup (columns d)). rewrite Hc. apply COLUMNS_NoDup.
Qed.

(** X12.  Importing a table whose columns are exactly [COLUMNS] stores it
    unchanged; and importing again a file that reads back as the stored
    table leaves the session as it is. *)
Theorem import_csv_round_trip {U E : Type} (read_csv : U -> E + DataFrame)
    (st : session_state) (up up' : U) (new_df : DataFrame) :
  read_csv up = inr new_df ->
  (columns new_df = COLUMNS ->
     df (fst (import_csv read_csv st (Some up))) = new_df)
  /\ (read_csv up' = inr (df (fst (import_csv read_csv st (Some up)))) ->
     fst (import_csv read_csv (fst (import_csv read_csv st (Some up))) (Some up'))
     = fst (import_csv read_csv st (Some up))).
Proof.
  intros H. rewrite (import_csv_success _ _ _ _ H). cbn [fst df]. split.
  - apply normalized_exact_schema.
  - intros H'. rewrite (import_csv_success _ _ _ _ H'). cbn [fst thresholds].
    now rewrite normalized_exact_schema.
Qed.

Lemma import_csv_round_trip_witness :
  let seed := Spec.normalized (mkDataFrame 1 [("tool", [Some "NZART"])]) in
  let read_csv := fun _ : string => @inr string DataFrame seed in
  let st := mkSession (mkDataFrame 0 []) DEFAULT_THRESHOLDS in
  df (fst (import_csv read_csv st (Some "a.csv"))) = seed
  /\ fst (import_csv read_csv (fst (import_csv read_csv st (Some "a.csv"))) (Some "b.csv"))
     = fst (import_csv read_csv st (Some "a.csv")).
Proof.
  intros seed read_csv st.
  destruct (import_csv_round_trip read_csv st "a.csv" "b.csv" seed eq_refl) as [H1 H2].
  split; [apply H1; reflexivity | apply H2; apply (f_equal inr); symmetry; apply H1; reflexivity].
Defined.



(** ** The History filter *)

Lemma lookup_series_select (mask : list bool) (c : string)
    (ss : list (string * list cell)) :
  lookup_series c (map (fun kv => (kv.1, select_cells mask kv.2)) ss)
  = select_cells mask <$> lookup_series c ss.
Proof.
  induction ss as [| [k vs] ss IH]; [reflexivity |].
  cbn [map lookup_series fst snd]. case_decide; [reflexivity | exact IH].
Qed.

Lemma select_cells_labels (d : DataFrame) (mask : list bool) :
  columns (getitem_mask d mask) = columns d.
Proof.
  unfold columns, getitem_mask. cbn [series].
  induction (series d) as [| [k vs] ss IH]; [reflexivity |].
  cbn [map fmap list_fmap fst]. f_equal. exact IH.
Qed.

Lemma select_cells_eq_mask (v : string) (vs : list cell) :
  select_cells (map (fun x => bool_decide (x = Some v)) vs) vs
  = filter (fun x => x = Some v) vs.
Proof.
  induction vs as [| x vs IH]; [reflexivity |].
  cbn [map select_cells]. rewrite filter_cons, IH.
  case_bool_decide; [now rewrite decide_True | now rewrite decide_False].
Qed.

Lemma select_cells_zip (v : string) (tools vs : list cell) :
  select_cells (map (fun x => bool_decide (x = Some v)) tools) vs
  = (filter (fun p => p.1 = Some v) (zip tools vs)).*2.
Proof.
  revert vs. induction tools as [| t tools IH]; intros [| x vs]; try reflexivity.
  cbn [map select_cells zip zip_with]. rewrite filter_cons, IH. cbn [fst].
  case_bool_decide; [now rewrite decide_True | now rewrite decide_False].
Qed.

Lemma count_eq_mask (v : string) (tools : list cell) :
  length (filter (fun b => b = true) (map (fun x => bool_decide (x = Some v)) tools))
  = length (filter (fun x => x = Some v) tools).
Proof.
  induction tools as [| t tools IH]; [reflexivity |].
  cbn [map]. rewrite !filter_cons.
  case_bool_decide as Ht.
  - rewrite decide_True by reflexivity. rewrite decide_True by exact Ht.
    cbn [length]. now rewrite IH.
  - rewrite decide_False by discriminate. rewrite decide_False by exact Ht.
    exact IH.
Qed.

Lemma getitem_mask_series (d : DataFrame) (v : string) (tools : list cell) :
  series (getitem_mask d (map (fun x => bool_decide (x = Some v)) tools))
  = map (fun kv => (kv.1, (filter (fun p => p.1 = Some v) (zip tools kv.2)).*2))
        (series d).
Proof.
  unfold getitem_mask. cbn [series].
  induction (series d) as [| kv ss IH]; [reflexivity |].
  cbn [map]. now rewrite select_cells_zip, IH.
Qed.

(** X13.  The History filter leaves the table as it is for [All]; for a
    tool it raises [KeyError] when there is no [tool] column, and
    otherwise shows exactly the rows whose [tool] cell is that tool, in
    their order: the row count is the number of such cells, the column
    labels are kept, and every column is cut down to the positions where
    the [tool] cell is that tool. *)
Theorem filter_by_tool_shows_only_tool (d : DataFrame) (filt_tool : string) :
  filter_by_tool d "All" = Some d
  /\ (filt_tool ≠ "All" -> lookup_series "tool" (series d) = None ->
      filter_by_tool d filt_tool = None)
  /\ (forall tools, filt_tool ≠ "All" ->
      lookup_series "tool" (series d) = Some tools ->
      exists shown,
        filter_by_tool d filt_tool = Some shown
        /\ index_len shown = length (filter (fun x => x = Some filt_tool) tools)
        /\ series shown
           = map (fun kv =>
                    (kv.1, (filter (fun p => p.1 = Some filt_tool) (zip tools kv.2)).*2))
                 (series d)
        /\ columns shown = columns d
        /\ lookup_series "tool" (series shown)
           = Some (filter (fun x => x = Some filt_tool) tools)).
Proof.
  split; [reflexivity |]. unfold filter_by_tool, eq_mask.
  split.
  - intros Hne Hk. rewrite bool_decide_eq_true_2 by exact Hne. now rewrite Hk.
  - intros tools Hne Hk. rewrite bool_decide_eq_true_2 by exact Hne. rewrite Hk.
    cbn [mbind option_bind]. eexists. split; [reflexivity |].
    split; [apply count_eq_mask |].
    split; [| split].
    + apply getitem_mask_series.
    + apply select_cells_labels.
    + unfold getitem_mask. cbn [series].
      rewrite lookup_series_select, Hk. cbn. now rewrite select_cells_eq_mask.
Qed.

Lemma filter_by_tool_shows_only_tool_witness :
  let d := mkDataFrame 3 [("tool", [Some "NZMAC"; Some "NZART"; Some "NZMAC"]);
                          ("risk_score", [Some "58"; Some "76"; Some "12"])] in
  exists shown,
    filter_by_tool d "NZMAC" = Some shown
    /\ shown = mkDataFrame 2 [("tool", [Some "NZMAC"; Some "NZMAC"]);
                              ("risk_score", [Some "58"; Some "12"])].
Proof.
  intros d.
  destruct (filter_by_tool_shows_only_tool d "NZMAC") as (_ & _ & H).
  destruct (H [Some "NZMAC"; Some "NZART"; Some "NZMAC"]) as (shown & Hs & Hn & Hss & _).
  - compute_done.
  - reflexivity.
  - exists shown. split; [exact Hs |].
    destruct shown as [n ss]. cbn [index_len series] in Hn, Hss. subst n ss.
    reflexivity.
Defined.

(** X14.  On a table stored by a successful import the History filter
    never raises, whatever the uploaded file held, and what it shows has
    the columns of [COLUMNS]. *)
Theorem filter_by_tool_after_import {U E : Type} (read_csv : U -> E + DataFrame)
    (st : session_state) (up : U) (new_df : DataFrame) (filt_tool : string) :
  read_csv up = inr new_df ->
  exists shown,
    filter_by_tool (df (fst (import_csv read_csv st (Some up)))) filt_tool = Some shown
    /\ columns shown = COLUMNS.
Proof.
  intros H. rewrite (import_csv_success _ _ _ _ H). cbn [fst df].
  unfold filter_by_tool. case_bool_decide; [| eexists; split; reflexivity].
  unfold eq_mask, Spec.normalized. cbn [series].
  rewrite lookup_series_map, bool_decide_eq_true_2 by compute_done.
  cbn [mbind option_bind]. eexists. split; [reflexivity |].
  now rewrite select_cells_labels.
Qed.

Lemma filter_by_tool_after_import_witness :
  let read_csv := fun up : string =>
    @inr string DataFrame (mkDataFrame 1 [("note", [Some up])]) in
  let st := mkSession (mkDataFrame 0 []) DEFAULT_THRESHOLDS in
  exists shown,
    filter_by_tool (df (fst (import_csv read_csv st (Some "x")))) "NZMAC" = Some shown
    /\ columns shown = COLUMNS.
Proof.
  intros read_csv st.
  apply (filter_by_tool_after_import read_csv st "x" (mkDataFrame 1 [("note", [Some "x"])])).
  reflexivity.
Defined.
